(** * Gemini-Model: the video upload, polling and clean-up protocol of video.py

    A shallow embedding of the three stateful pieces of [video.py]:
    [upload_video_to_gemini] (stage a temporary copy, upload it, poll until
    the service stops reporting PROCESSING), [get_gemini_response] (one
    generation request) and the handler of the "Clear Chat & Remove Video"
    button, and of the script that calls them in every run of the page
    ([script]).  The program talks to the outside (the clock, the disk, the
    Streamlit page, the genai service); all of it is threaded through an
    explicit [World], and the answers of the outside are given by a
    [Backend] oracle, so that every run of the Python code is one evaluation
    of the functions below.

    Conventions of the model:
    - time is counted in whole seconds ([Z]); it passes when the program
      sleeps, while a request is served, and before a reading of the clock,
      by amounts that the backend chooses and that are never negative;
    - the calls of Streamlit ([st.info], [st.error], ...) only add to the
      page and do not raise; [os.unlink] raises only when the file is not
      there; every call into [tempfile], the file object and [genai] may
      raise;
    - [upload_video_to_gemini] is the body of the function; the
      [@st.cache_resource] around it is modelled where the script calls the
      function ([upload_video_to_gemini_cached]);
    - logs (page, requests) are lists with the newest entry first. *)

From Stdlib Require Import String List ZArith NArith Lia Bool.
From Stdlib Require Import DecimalString.
Import ListNotations.

Open Scope string_scope.
Open Scope Z_scope.

(** ** Values exchanged with the outside *)

(** A Python exception, seen through [str(e)], which is all the code uses. *)
Record Exn := mkExn { exn_text : string }.

(** What a call into a library gives back: a value, or a raised exception. *)
Inductive Reply (A : Type) : Type :=
| Ok (a : A)
| Raise (e : Exn).
Arguments Ok {A} a.
Arguments Raise {A} e.

(** The file object of the genai SDK, as far as the code reads it:
    [video_file.name], [video_file.uri] and [video_file.state.name].  The
    state is read through its name only, a string that the code compares
    with "PROCESSING", "FAILED" and "ACTIVE". *)
Record File := mkFile {
  name : string;
  uri : string;
  state_name : string
}.

(** Streamlit's [UploadedFile]: [uploaded_file.name] and
    [uploaded_file.getvalue()]. *)
Record UploadedFile := mkUploaded {
  uf_name : string;
  getvalue : list Byte.byte
}.

(** The response of [model.generate_content]: [response.candidates] and the
    property [response.text], whose evaluation may itself raise. *)
Record Response := mkResponse {
  candidates : list string;
  text : Reply string
}.

(** The parts of a generation request: [[system_prompt, video_file_obj,
    user_prompt]]. *)
Inductive Part :=
| PText (s : string)
| PFile (f : File).

(** One request sent to the genai service, with what came back. *)
Inductive Event :=
| upload_file (path : string) (r : Reply File)
| get_file (nm : string) (r : Reply File)
| delete_file (nm : string) (r : Reply unit)
| generate_content (parts : list Part) (timeout : Z) (r : Reply Response).

(** What the page shows: [st.info], [st.error], [st.success] and the
    sidebar's success and warning boxes; [st.rerun()]. *)
Inductive Level := Info | Error | Success | SidebarSuccess | SidebarWarning.

Inductive Ui :=
| Show (l : Level) (msg : string)
| Rerun.

(** ** The world and the backend *)

(** Logs are kept newest first. *)
Record World := mkWorld {
  clock : Z;             (* what time.time() would return now *)
  disk : list string;    (* the temporary files that exist *)
  ui : list Ui;          (* what was shown on the page *)
  net : list Event       (* the requests made to the service *)
}.

(** The outside, as a deterministic oracle.  The service's answers may depend
    on everything requested so far; each answer comes with the time it took.
    [pause] is the time that passes before a reading of the clock. *)
Record Backend := mkBackend {
  on_tempfile : list string -> string -> Reply string;
  on_write : string -> list Byte.byte -> Reply unit;
  on_upload : list Event -> string -> N * Reply File;
  on_get : list Event -> string -> N * Reply File;
  on_delete : list Event -> string -> N * Reply unit;
  on_generate : list Event -> list Part -> Z -> N * Reply Response;
  pause : list Event -> N
}.

(** ** A state and exception monad, with divergence

    [None] is a computation that has not finished within its fuel. *)
Definition M (A : Type) : Type := World -> option (Reply A * World).

Definition ret {A} (a : A) : M A := fun w => Some (Ok a, w).

Definition bind {A B} (m : M A) (k : A -> M B) : M B :=
  fun w =>
    match m w with
    | Some (Ok a, w') => k a w'
    | Some (Raise e, w') => Some (Raise e, w')
    | None => None
    end.

Definition raise {A} (e : Exn) : M A := fun w => Some (Raise e, w).

(** [try: m except Exception as e: h e] *)
Definition catch {A} (m : M A) (h : Exn -> M A) : M A :=
  fun w =>
    match m w with
    | Some (Raise e, w') => h e w'
    | r => r
    end.

Definition spin {A} : M A := fun _ => None.

Definition lift {A} (r : Reply A) : M A :=
  match r with
  | Ok a => ret a
  | Raise e => raise e
  end.

Notation "x <- m ;; k" := (bind m (fun x => k))
  (at level 61, m at next level, right associativity).
Notation "m ;; k" := (bind m (fun _ => k))
  (at level 61, right associativity).

(** A [while] loop: [step] evaluates the test and, when it holds, the body;
    it answers [inl r] when the loop is left with [r] and [inr s] when the
    body has run and the test is to be evaluated again, which takes one unit
    of fuel. *)
Fixpoint loop {S R} (step : S -> M (R + S)) (fuel : nat) (s : S) : M R :=
  x <- step s ;;
  match x with
  | inl r => ret r
  | inr s' =>
    match fuel with
    | O => spin
    | Datatypes.S fuel' => loop step fuel' s'
    end
  end.

(** ** Primitives *)

Definition advance (d : N) (w : World) : World :=
  mkWorld (clock w + Z.of_N d) (disk w) (ui w) (net w).

Definition show (l : Level) (msg : string) : M unit :=
  fun w => Some (Ok tt, mkWorld (clock w) (disk w) (Show l msg :: ui w) (net w)).

Definition st_info := show Info.
Definition st_error := show Error.
Definition st_success := show Success.
Definition st_sidebar_success := show SidebarSuccess.
Definition st_sidebar_warning := show SidebarWarning.

Definition st_rerun : M unit :=
  fun w => Some (Ok tt, mkWorld (clock w) (disk w) (Rerun :: ui w) (net w)).

Section Primitives.

Variable b : Backend.

(** [time.time()] *)
Definition time_time : M Z :=
  fun w => let w' := advance (pause b (net w)) w in Some (Ok (clock w'), w').

(** [time.sleep(d)]; [d] is not negative in the code. *)
Definition time_sleep (d : Z) : M unit :=
  fun w => Some (Ok tt, advance (Z.to_N d) w).

(** [tempfile.NamedTemporaryFile(delete=False, suffix=...)]: when it returns,
    the file exists.  The suffix is a function of the uploaded file's name,
    which is what the oracle is given. *)
Definition NamedTemporaryFile (uploaded_name : string) : M string :=
  fun w =>
    match on_tempfile b (disk w) uploaded_name with
    | Ok p => Some (Ok p, mkWorld (clock w) (p :: disk w) (ui w) (net w))
    | Raise e => Some (Raise e, w)
    end.

Definition tmp_write (p : string) (data : list Byte.byte) : M unit :=
  lift (on_write b p data).

Definition os_path_exists (p : string) : M bool :=
  fun w => Some (Ok (existsb (String.eqb p) (disk w)), w).

(** [os.unlink(p)] raises when there is no such file. *)
Definition os_unlink (p : string) : M unit :=
  fun w =>
    if existsb (String.eqb p) (disk w)
    then Some (Ok tt, mkWorld (clock w)
                        (filter (fun q => negb (String.eqb p q)) (disk w))
                        (ui w) (net w))
    else Some (Raise (mkExn "FileNotFoundError"), w).

Definition request {A} (ans : N * Reply A) (ev : Reply A -> Event) : M A :=
  fun w =>
    let w' := mkWorld (clock w + Z.of_N (fst ans)) (disk w) (ui w)
                      (ev (snd ans) :: net w) in
    match snd ans with
    | Ok a => Some (Ok a, w')
    | Raise e => Some (Raise e, w')
    end.

Definition genai_upload_file (path : string) : M File :=
  fun w => request (on_upload b (net w) path) (upload_file path) w.

Definition genai_get_file (nm : string) : M File :=
  fun w => request (on_get b (net w) nm) (get_file nm) w.

Definition genai_delete_file (nm : string) : M unit :=
  fun w => request (on_delete b (net w) nm) (delete_file nm) w.

Definition model_generate_content (parts : list Part) (timeout : Z) : M Response :=
  fun w => request (on_generate b (net w) parts timeout)
                   (generate_content parts timeout) w.

End Primitives.

(** ** upload_video_to_gemini *)

Definition string_of_Z (z : Z) : string := NilZero.string_of_int (Z.to_int z).

Definition msg_uploading (n : string) : string :=
  "⏳ Uploading video: " ++ n ++ "...".
Definition msg_uploaded (n u : string) : string :=
  "✨ Video '" ++ n ++ "' uploaded successfully. URI: " ++ u.
Definition msg_timed_out (max_polling_time : Z) : string :=
  "🚨 Video processing timed out after " ++ string_of_Z max_polling_time
  ++ " seconds.".
Definition msg_state (st : string) (polling_interval : Z) : string :=
  "⌛ Video state: " ++ st ++ " (checking again in "
  ++ string_of_Z polling_interval ++ "s)".
Definition msg_failed : string :=
  "🚨 Video processing failed on the server.".
Definition msg_ready (n : string) : string :=
  "✅ Video '" ++ n ++ "' is ready for analysis!".
Definition msg_upload_exception (e : Exn) : string :=
  "🚨 An error occurred during video upload or processing: " ++ exn_text e.

(** How the [while] loop is left: by the [return None] inside it, or because
    its test failed, with the [video_file] of that moment. *)
Inductive LoopExit :=
| returned_None
| fell_through (video_file : File).

Section Upload.

Variable b : Backend.

(** The two local constants of the function; [upload_video_to_gemini] fixes
    them to 5 and 300. *)
Variables polling_interval max_polling_time : Z.

Section Polling.

Variables (uploaded_file : UploadedFile) (tmp_file_path : string) (start_time : Z).

(** Lines 60-67: the loop's test and body. *)
Definition poll_step (video_file : File) : M (LoopExit + File) :=
  if (state_name video_file =? "PROCESSING")%string then
    now <- time_time b ;;
    if now - start_time >? max_polling_time then
      st_error (msg_timed_out max_polling_time) ;;
      os_unlink tmp_file_path ;;
      ret (inl returned_None)
    else
      time_sleep polling_interval ;;
      video_file' <- genai_get_file b (name video_file) ;;
      st_info (msg_state (state_name video_file') polling_interval) ;;
      ret (inr video_file')
  else ret (inl (fell_through video_file)).

Definition poll : nat -> File -> M LoopExit := loop poll_step.

(** Lines 69-76, after the loop. *)
Definition after_loop (x : LoopExit) : M (option File) :=
  match x with
  | returned_None => ret None
  | fell_through video_file =>
    if (state_name video_file =? "FAILED")%string then
      st_error msg_failed ;;
      os_unlink tmp_file_path ;;
      ret None
    else
      os_unlink tmp_file_path ;;
      st_success (msg_ready (uf_name uploaded_file)) ;;
      ret (Some video_file)
  end.

End Polling.

(** Lines 45-48: the [with] block.  The file exists as soon as
    [NamedTemporaryFile] has returned; [tmp_file_path] is bound only after
    the write. *)
Definition stage (uploaded_file : UploadedFile) : M string :=
  tmp_file <- NamedTemporaryFile b (uf_name uploaded_file) ;;
  tmp_write b tmp_file (getvalue uploaded_file) ;;
  st_info (msg_uploading (uf_name uploaded_file)) ;;
  ret tmp_file.

(** Lines 51-76. *)
Definition upload_and_poll (fuel : nat) (uploaded_file : UploadedFile)
    (tmp_file_path : string) : M (option File) :=
  video_file <- genai_upload_file b tmp_file_path ;;
  st_info (msg_uploaded (uf_name uploaded_file) (uri video_file)) ;;
  start_time <- time_time b ;;
  x <- poll tmp_file_path start_time fuel video_file ;;
  after_loop uploaded_file tmp_file_path x.

(** Lines 78-82: the handler.  Its argument says whether ['tmp_file_path' in
    locals()], and with which value. *)
Definition on_exception (tmp_file_path : option string) (e : Exn) : M (option File) :=
  st_error (msg_upload_exception e) ;;
  match tmp_file_path with
  | Some p =>
    there <- os_path_exists p ;;
    if there : bool then os_unlink p else ret tt
  | None => ret tt
  end ;;
  ret None.

(** The whole function, for any value of its two constants.  The [try] block
    is cut where [tmp_file_path] gets bound, since the handler asks for
    that. *)
Definition upload_and_await (fuel : nat) (uploaded_file : option UploadedFile)
    : M (option File) :=
  match uploaded_file with
  | None => ret None
  | Some u =>
    staged <- catch (p <- stage u ;; ret (inl p))
                    (fun e => v <- on_exception None e ;; ret (inr v)) ;;
    match staged with
    | inl p => catch (upload_and_poll fuel u p) (on_exception (Some p))
    | inr v => ret v
    end
  end.

End Upload.

(** The loop of the code tests the clock before each of its sleeps of 5
    seconds and gives up past 300: it cannot go round more than 61 times. *)
Definition upload_video_to_gemini (b : Backend) (uploaded_file : option UploadedFile)
    : M (option File) :=
  upload_and_await b 5 300 61 uploaded_file.

(** ** get_gemini_response *)

Definition msg_upload_first : string := "Please upload a video first.".
Definition msg_thinking : string := "🧠 Thinking...".
Definition msg_no_response : string :=
  "⚠️ The model could not generate a response. This might be due to safety filters or limitations. Please try a different question or video.".
Definition msg_generation_exception (e : Exn) : string :=
  "🚨 An error occurred while generating the response: " ++ exn_text e.
Definition msg_sorry : string :=
  "Sorry, I encountered an error trying to analyze the video with your question.".

Section Query.

Variable b : Backend.

(** The long prompt of lines 90-111, a constant that no branch looks at. *)
Variable system_prompt : string.

Definition get_gemini_response (video_file_obj : option File) (user_prompt : string)
    : M string :=
  match video_file_obj with
  | None => ret msg_upload_first
  | Some video_file_obj =>
    catch
      (st_info msg_thinking ;;
       response <- model_generate_content b
         [PText system_prompt; PFile video_file_obj; PText user_prompt] 600 ;;
       match candidates response with
       | [] => ret msg_no_response
       | _ :: _ => lift (text response)
       end)
      (fun e =>
         st_error (msg_generation_exception e) ;;
         ret msg_sorry)
  end.

End Query.

(** ** The "Clear Chat & Remove Video" button *)

(** [st.session_state], with the four keys the script initialises. *)
Record Session := mkSession {
  messages : list (string * string);
  uploaded_video_file_obj : option File;
  uploaded_file_name : option string;
  upload_key : Z
}.

Definition msg_removed (n : string) : string :=
  "Removed file '" ++ n ++ "' from server.".
Definition msg_skipping (n st : string) : string :=
  "File '" ++ n ++ "' state is " ++ st ++ ", skipping deletion.".
Definition msg_could_not_remove (e : Exn) : string :=
  "Could not remove file from server: " ++ exn_text e.

Section Release.

Variable b : Backend.

(** Lines 229-239: the attempt on the server. *)
Definition remove_from_server (obj : option File) : M unit :=
  match obj with
  | Some obj =>
    catch
      (file_to_delete <- genai_get_file b (name obj) ;;
       if (state_name file_to_delete =? "ACTIVE")%string then
         genai_delete_file b (name obj) ;;
         st_sidebar_success (msg_removed (name obj))
       else
         st_sidebar_warning (msg_skipping (name obj) (state_name file_to_delete)))
      (fun del_e => st_sidebar_warning (msg_could_not_remove del_e))
  | None => ret tt
  end.

(** Lines 225-242: what a press of the button runs. *)
Definition clear_chat_and_remove_video (s : Session) : M Session :=
  remove_from_server (uploaded_video_file_obj s) ;;
  st_rerun ;;
  ret (mkSession [] None None (upload_key s + 1)).

End Release.

(** ** The script around the helpers

    Streamlit runs the whole script again at every interaction; what lasts
    from one run to the next is [st.session_state].  A run reads the widgets
    (the file of the uploader, the text of the chat input, the button), and
    [st.rerun()] ends it at once. *)

(** What a run puts on the page besides the boxes of [Ui]: [st.header],
    [st.spinner], [st.video], [st.warning], and a chat message
    ([with st.chat_message(role): st.markdown(content)]).  Newest first. *)
Inductive Widget :=
| Header (s : string)
| Spinner (s : string)
| Video (u : UploadedFile)
| WarningBox (msg : string)
| ChatMessage (role content : string).

(** [st.session_state] as a run finds it: each of the four keys is there or
    not. *)
Record SessionState := mkState {
  key_messages : option (list (string * string));
  key_uploaded_video_file_obj : option (option File);
  key_uploaded_file_name : option (option string);
  key_upload_key : option Z
}.

(** Lines 147-154: a key that is missing gets its first value. *)
Definition initialise (d : SessionState) : Session :=
  mkSession
    (match key_messages d with Some ms => ms | None => [] end)
    (match key_uploaded_video_file_obj d with Some o => o | None => None end)
    (match key_uploaded_file_name d with Some n => n | None => None end)
    (match key_upload_key d with Some k => k | None => 0 end).

(** The state that a run leaves: all four keys are there. *)
Definition stored (s : Session) : SessionState :=
  mkState (Some (messages s)) (Some (uploaded_video_file_obj s))
          (Some (uploaded_file_name s)) (Some (upload_key s)).

(** [str(x)] of a name that may be [None], as an f-string prints it. *)
Definition str_of_name (n : option string) : string :=
  match n with
  | Some n => n
  | None => "None"
  end.

Definition msg_ready_to_analyze (n : option string) : string :=
  "Ready to analyze: **" ++ str_of_name n ++ "**".
Definition msg_processing_failed : string :=
  "Video processing failed or was cancelled. Please try uploading again.".
Definition msg_ask_questions : string :=
  "Ask questions about the video in the main chat area.".
Definition msg_process_first : string :=
  "Please upload and process a video first using the sidebar.".

(** How a part of the script ends: the script goes on, or [st.rerun()] has
    stopped it. *)
Inductive Flow :=
| proceed (s : Session)
| rerun (s : Session).

(** [st.session_state.uploaded_file_name != uploaded_file.name], negated. *)
Definition same_name (recorded : option string) (u : UploadedFile) : bool :=
  match recorded with
  | Some n => String.eqb n (uf_name u)
  | None => false
  end.

(** Lines 199-201: the chat so far, one chat message each. *)
Definition transcript (ms : list (string * string)) : list Widget :=
  rev (map (fun m => ChatMessage (fst m) (snd m)) ms).

(** What the three widgets hold in a run. *)
Record Inputs := mkInputs {
  uploader : option UploadedFile;   (* st.file_uploader *)
  chat_input : option string;       (* st.chat_input *)
  clear_button : bool               (* st.sidebar.button *)
}.

(** [@st.cache_resource] on [upload_video_to_gemini]: Streamlit keeps the
    results of the calls made so far, by the argument (for an uploaded file:
    its name and its bytes), for all sessions; a call with an argument that
    it knows returns the kept result without running the function, and shows
    again the boxes that the function had shown. *)
Definition Cache := list (UploadedFile * (option File * list Ui)).

Definition same_file (u u' : UploadedFile) : bool :=
  String.eqb (uf_name u) (uf_name u')
  && if list_eq_dec Byte.byte_eq_dec (getvalue u) (getvalue u') then true else false.

Fixpoint cached (c : Cache) (u : UploadedFile) : option (option File * list Ui) :=
  match c with
  | [] => None
  | (u', kept) :: older => if same_file u u' then Some kept else cached older u
  end.

Definition page_so_far : M (list Ui) := fun w => Some (Ok (ui w), w).

Definition replay (shown : list Ui) : M unit :=
  fun w => Some (Ok tt, mkWorld (clock w) (disk w) (shown ++ ui w)%list (net w)).

Section Script.

Variable b : Backend.
Variable system_prompt : string.

(** The call [upload_video_to_gemini(uploaded_file)] of line 173, through the
    cache. *)
Definition upload_video_to_gemini_cached (c : Cache) (u : UploadedFile)
    : M (option File * Cache) :=
  match cached c u with
  | Some (v, shown) => replay shown ;; ret (v, c)
  | None =>
    before <- page_so_far ;;
    v <- upload_video_to_gemini b (Some u) ;;
    after <- page_so_far ;;
    ret (v, (u, (v, firstn (length after - length before) after)) :: c)
  end.

(** Lines 157-192. *)
Definition upload_section (c : Cache) (uploaded_file : option UploadedFile) (s : Session)
    : M (Flow * list Widget * Cache) :=
  match uploaded_file with
  | Some u =>
    if negb (same_name (uploaded_file_name s) u) then
      r <- upload_video_to_gemini_cached c u ;;
      st_rerun ;;
      ret (rerun (mkSession [] (fst r) (Some (uf_name u)) (upload_key s + 1)),
           [Spinner "Processing video... This may take a few minutes.";
            Header "Upload Video"],
           snd r)
    else
      match uploaded_video_file_obj s with
      | Some _ =>
        st_success (msg_ready_to_analyze (uploaded_file_name s)) ;;
        ret (proceed s, [Video u; Header "Upload Video"], c)
      | None =>
        st_error msg_processing_failed ;;
        ret (proceed (mkSession (messages s) None None (upload_key s)),
             [Header "Upload Video"], c)
      end
  | None =>
    match uploaded_video_file_obj s with
    | Some _ =>
      st_success (msg_ready_to_analyze (uploaded_file_name s)) ;;
      st_info msg_ask_questions ;;
      ret (proceed s, [Header "Upload Video"], c)
    | None => ret (proceed s, [Header "Upload Video"], c)
    end
  end.

(** Lines 204-222.  An empty text is as good as none for [if prompt := ...]. *)
Definition chat (prompt : option string) (s : Session) : M (Session * list Widget) :=
  match prompt with
  | None => ret (s, [])
  | Some "" => ret (s, [])
  | Some prompt =>
    match uploaded_video_file_obj s with
    | None => ret (s, [WarningBox msg_process_first])
    | Some obj =>
      response_text <- get_gemini_response b system_prompt (Some obj) prompt ;;
      ret (mkSession (messages s ++ [("user", prompt); ("assistant", response_text)])
                     (uploaded_video_file_obj s) (uploaded_file_name s) (upload_key s),
           [ChatMessage "assistant" response_text; ChatMessage "user" prompt])
    end
  end.

(** Lines 156-242, one run of the script on an initialised session. *)
Definition script (c : Cache) (i : Inputs) (s : Session)
    : M (Session * list Widget * Cache) :=
  x <- upload_section c (uploader i) s ;;
  match x with
  | (rerun s1, page, c1) => ret (s1, page, c1)
  | (proceed s1, page, c1) =>
    y <- chat (chat_input i) s1 ;;
    let page' := (snd y ++ transcript (messages s1)
                    ++ Header "Chat about the Video" :: page)%list in
    if clear_button i then
      s3 <- clear_chat_and_remove_video b (fst y) ;;
      ret (s3, page', c1)
    else ret (fst y, page', c1)
  end.

(** A run, from the state and the cache that it finds to those that it
    leaves. *)
Definition run (i : Inputs) (dc : SessionState * Cache) : M (SessionState * Cache) :=
  y <- script (snd dc) i (initialise (fst dc)) ;;
  ret (stored (fst (fst y)), snd y).

(** The runs of a visit, one after the other. *)
Fixpoint play (visit : list Inputs) (dc : SessionState * Cache)
    : M (SessionState * Cache) :=
  match visit with
  | [] => ret dc
  | i :: later => dc' <- run i dc ;; play later dc'
  end.

End Script.

(** * The vocabulary of the properties *)

(** [terminates m Q w]: started in [w], [m] finishes (within its fuel), and
    its reply and final world satisfy [Q]. *)
Definition terminates {A} (m : M A) (Q : Reply A -> World -> Prop) (w : World) : Prop :=
  match m w with
  | Some (r, w') => Q r w'
  | None => False
  end.

(** [turns step n s w]: the loop goes round [n] times from [s], none of
    which leaves it, and is then about to evaluate its test in the state
    given. *)
Fixpoint turns {S R} (step : S -> M (R + S)) (n : nat) (s : S) (w : World)
    : option (S * World) :=
  match n with
  | O => Some (s, w)
  | Datatypes.S n' =>
    match step s w with
    | Some (Ok (inr s'), w') => turns step n' s' w'
    | _ => None
    end
  end.

(** What an event tells about the state of the file, if anything. *)
Definition report_of (ev : Event) : option (Reply File) :=
  match ev with
  | upload_file _ r => Some r
  | get_file _ r => Some r
  | _ => None
  end.

Definition last_report (evs : list Event) : option (Reply File) :=
  match evs with
  | ev :: _ => report_of ev
  | [] => None
  end.

(** The requests of one run, newest first: the upload of the temporary
    file, then status polls, each of them made by the name of a file last
    reported as PROCESSING. *)
Inductive polled (p : string) : list Event -> Prop :=
| polled_upload r : polled p [upload_file p r]
| polled_again f r evs :
    polled p evs ->
    last_report evs = Some (Ok f) ->
    state_name f = "PROCESSING" ->
    polled p (get_file (name f) r :: evs).

(** The number of status polls among some events. *)
Definition polls (evs : list Event) : nat :=
  length (filter (fun ev => match ev with get_file _ _ => true | _ => false end) evs).

(** The ways out of the function once the temporary copy is staged. *)
Inductive Exit :=
| ready (f : File)
| remote_failure (f : File)
| timeout (f : File)
| transport_error (e : Exn).

Definition result_of (x : Exit) : option File :=
  match x with
  | ready f => Some f
  | _ => None
  end.

Definition last_reply (x : Exit) : Reply File :=
  match x with
  | ready f | remote_failure f | timeout f => Ok f
  | transport_error e => Raise e
  end.

Definition last_words (max_polling_time : Z) (u : UploadedFile) (x : Exit) : Ui :=
  match x with
  | ready _ => Show Success (msg_ready (uf_name u))
  | remote_failure _ => Show Error msg_failed
  | timeout _ => Show Error (msg_timed_out max_polling_time)
  | transport_error e => Show Error (msg_upload_exception e)
  end.

Definition admissible (x : Exit) : Prop :=
  match x with
  | ready f => state_name f <> "PROCESSING" /\ state_name f <> "FAILED"
  | remote_failure f => state_name f = "FAILED"
  | timeout f => state_name f = "PROCESSING"
  | transport_error _ => True
  end.

(** What a finished run looks like from [w]: the exit, the requests made,
    the last message shown, and the temporary file gone. *)
Definition exits (max_polling_time : Z) (u : UploadedFile) (p : string) (w : World)
    (r : Reply (option File)) (w' : World) : Prop :=
  exists x evs,
    r = Ok (result_of x) /\
    net w' = (evs ++ net w)%list /\
    polled p evs /\
    last_report evs = Some (last_reply x) /\
    admissible x /\
    hd_error (ui w') = Some (last_words max_polling_time u x) /\
    disk w' = filter (fun q => negb (String.eqb p q)) (disk w).

(** The invariant of the loop. *)
Definition polling (p : string) (w0 : World) (video_file : File) (w : World) : Prop :=
  exists evs,
    net w = (evs ++ net w0)%list /\
    polled p evs /\
    last_report evs = Some (Ok video_file) /\
    disk w = disk w0.

(** The world once the [with] block has been left normally. *)
Definition staged_world (u : UploadedFile) (p : string) (w : World) : World :=
  mkWorld (clock w) (p :: disk w) (Show Info (msg_uploading (uf_name u)) :: ui w) (net w).

(** The staging raised [e]: no temporary file could be made, or the write
    into it failed. *)
Definition staging_fails (b : Backend) (u : UploadedFile) (w : World) (e : Exn) : Prop :=
  on_tempfile b (disk w) (uf_name u) = Raise e \/
  exists p, on_tempfile b (disk w) (uf_name u) = Ok p /\
            on_write b p (getvalue u) = Raise e.

(** An event that reports the file as still PROCESSING. *)
Definition reports_processing (ev : Event) : Prop :=
  exists f, report_of ev = Some (Ok f) /\ state_name f = "PROCESSING".

(** The parts sent with a question. *)
Definition asked (system_prompt : string) (f : File) (user_prompt : string) : list Part :=
  [PText system_prompt; PFile f; PText user_prompt].

(** A message of the sidebar: a success or a warning box. *)
Definition sidebar (m : Ui) : Prop :=
  match m with
  | Show SidebarSuccess _ | Show SidebarWarning _ => True
  | _ => False
  end.


(** The world at the first test of the loop, when the staged file [p] has
    been uploaded and the service has answered with [f0]; its clock is the
    [start_time] of the run. *)
Definition entered (b : Backend) (u : UploadedFile) (p : string) (f0 : File) (w : World)
    : World :=
  let h0 := upload_file p (Ok f0) :: net w in
  mkWorld (clock w + Z.of_N (fst (on_upload b (net w) p)) + Z.of_N (pause b h0))
          (p :: disk w)
          (Show Info (msg_uploaded (uf_name u) (uri f0))
             :: Show Info (msg_uploading (uf_name u)) :: ui w)
          h0.

(** The world after one more turn of the loop, whose poll was answered with
    [f']. *)
Definition turned (b : Backend) (polling_interval : Z) (f f' : File) (w : World) : World :=
  mkWorld (clock w + Z.of_N (pause b (net w)) + Z.of_N (Z.to_N polling_interval)
           + Z.of_N (fst (on_get b (net w) (name f))))
          (disk w)
          (Show Info (msg_state (state_name f') polling_interval) :: ui w)
          (get_file (name f) (Ok f') :: net w).

(** The world after the loop has given up. *)
Definition given_up (b : Backend) (max_polling_time : Z) (p : string) (w : World) : World :=
  mkWorld (clock w + Z.of_N (pause b (net w)))
          (filter (fun q => negb (String.eqb p q)) (disk w))
          (Show Error (msg_timed_out max_polling_time) :: ui w)
          (net w).

(** The world after the loop has been left with a file that is neither
    PROCESSING nor FAILED. *)
Definition succeeded (u : UploadedFile) (p : string) (w : World) : World :=
  mkWorld (clock w)
          (filter (fun q => negb (String.eqb p q)) (disk w))
          (Show Success (msg_ready (uf_name u)) :: ui w)
          (net w).

(** The service, asked from the history [h], reports PROCESSING for the
    upload, PROCESSING at the first poll and ACTIVE at the second. *)
Definition processing_twice_then_ready (b : Backend) (h : list Event) (p : string)
    (f0 f1 f2 : File) : Prop :=
  snd (on_upload b h p) = Ok f0 /\
  state_name f0 = "PROCESSING" /\
  snd (on_get b (upload_file p (Ok f0) :: h) (name f0)) = Ok f1 /\
  state_name f1 = "PROCESSING" /\
  snd (on_get b (get_file (name f0) (Ok f1) :: upload_file p (Ok f0) :: h) (name f1))
  = Ok f2 /\
  state_name f2 = "ACTIVE".

(** The wait accumulated at the first and at the second test of the loop is
    within [max_polling_time]. *)
Definition within_the_wait (b : Backend) (h : list Event) (p : string) (f0 f1 : File)
    (polling_interval max_polling_time : Z) : Prop :=
  let h0 := upload_file p (Ok f0) :: h in
  let h1 := get_file (name f0) (Ok f1) :: h0 in
  Z.of_N (pause b h0) <= max_polling_time /\
  Z.of_N (pause b h0) + polling_interval + Z.of_N (fst (on_get b h0 (name f0)))
  + Z.of_N (pause b h1) <= max_polling_time.


(** ** Sample inputs *)

Definition clip : UploadedFile := mkUploaded "squat.mp4" [].

Definition tmp_path : string := "/tmp/tmpk3v9x2.mp4".

Definition fresh : World := mkWorld 0 [] [] [].

Definition remote (st : string) : File :=
  mkFile "files/abc123"
         "https://generativelanguage.googleapis.com/v1beta/files/abc123" st.

Definition answer : Response :=
  mkResponse ["candidate"] (Ok "Keep your back straight.").

(** A service that answers at once and never raises; the state it reports
    is a function of the number of requests it has had before. *)
Definition scripted (state_after : nat -> string) : Backend :=
  mkBackend (fun _ _ => Ok tmp_path)
            (fun _ _ => Ok tt)
            (fun h _ => (0%N, Ok (remote (state_after (length h)))))
            (fun h _ => (0%N, Ok (remote (state_after (length h)))))
            (fun _ _ => (0%N, Ok tt))
            (fun _ _ _ => (0%N, Ok answer))
            (fun _ => 0%N).

(** A service whose model produces no candidate; reading [response.text]
    would raise. *)
Definition silent : Backend :=
  mkBackend (fun _ _ => Ok tmp_path)
            (fun _ _ => Ok tt)
            (fun _ _ => (0%N, Ok (remote "ACTIVE")))
            (fun _ _ => (0%N, Ok (remote "ACTIVE")))
            (fun _ _ => (0%N, Ok tt))
            (fun _ _ _ => (0%N, Ok (mkResponse [] (Raise (mkExn "ValueError")))))
            (fun _ => 0%N).

(** A service that has the file as ACTIVE and refuses to delete it, and whose
    model cannot be reached. *)
Definition refusing : Backend :=
  mkBackend (fun _ _ => Ok tmp_path)
            (fun _ _ => Ok tt)
            (fun _ _ => (0%N, Ok (remote "ACTIVE")))
            (fun _ _ => (0%N, Ok (remote "ACTIVE")))
            (fun _ _ => (0%N, Raise (mkExn "403 permission denied")))
            (fun _ _ _ => (0%N, Raise (mkExn "503 unavailable")))
            (fun _ => 0%N).

(** A machine whose disk fills up while the temporary copy is written. *)
Definition full_disk : Backend :=
  mkBackend (fun _ _ => Ok tmp_path)
            (fun _ _ => Raise (mkExn "[Errno 28] No space left on device"))
            (fun _ _ => (0%N, Ok (remote "ACTIVE")))
            (fun _ _ => (0%N, Ok (remote "ACTIVE")))
            (fun _ _ => (0%N, Ok tt))
            (fun _ _ _ => (0%N, Ok answer))
            (fun _ => 0%N).

(** A service whose model answers every question with the text [t]. *)
Definition parrot (t : string) : Backend :=
  mkBackend (fun _ _ => Ok tmp_path)
            (fun _ _ => Ok tt)
            (fun _ _ => (0%N, Ok (remote "ACTIVE")))
            (fun _ _ => (0%N, Ok (remote "ACTIVE")))
            (fun _ _ => (0%N, Ok tt))
            (fun _ _ _ => (0%N, Ok (mkResponse ["candidate"] (Ok t))))
            (fun _ => 0%N).

(** A service that reports PROCESSING for the upload and at the first poll,
    and ACTIVE from the second poll on, and that takes 300 seconds to answer
    a poll. *)
Definition sluggish : Backend :=
  mkBackend (fun _ _ => Ok tmp_path)
            (fun _ _ => Ok tt)
            (fun _ _ => (0%N, Ok (remote "PROCESSING")))
            (fun h _ => (300%N, Ok (remote (if (length h <? 2)%nat then "PROCESSING"
                                            else "ACTIVE"))))
            (fun _ _ => (0%N, Ok tt))
            (fun _ _ _ => (0%N, Ok answer))
            (fun _ => 0%N).

(** ** Further vocabulary: what a run requests *)





(** ** Further vocabulary: the session across runs *)

(** A handle that is neither PROCESSING nor FAILED, by the state it carries. *)
Definition settled (o : option File) : Prop :=
  forall f, o = Some f -> state_name f <> "PROCESSING" /\ state_name f <> "FAILED".

(** The roles of a chat alternate: user, assistant, user, ..., and the chat
    does not end on a question. *)
Fixpoint alternates (user_next : bool) (ms : list (string * string)) : bool :=
  match ms with
  | [] => user_next
  | (role, _) :: rest =>
    String.eqb role (if user_next then "user" else "assistant")
    && alternates (negb user_next) rest
  end.

Definition dialogue (ms : list (string * string)) : bool := alternates true ms.

(** A generation request is about settled files only. *)
Definition about_settled (ev : Event) : Prop :=
  match ev with
  | generate_content parts _ _ =>
    forall f, In (PFile f) parts ->
              state_name f <> "PROCESSING" /\ state_name f <> "FAILED"
  | _ => True
  end.

Definition session_of (fl : Flow) : Session :=
  match fl with
  | proceed s => s
  | rerun s => s
  end.

(** [st.session_state] at the first run of a visit. *)
Definition empty_state : SessionState := mkState None None None None.

(** The service has reported the file [f] among the events [h]. *)
Definition reported (h : list Event) (f : File) : Prop :=
  exists ev, In ev h /\ report_of ev = Some (Ok f).

(** Every deletion among [evs] (newest first) is of a file that the service
    had reported before, by its name. *)
Fixpoint deletions_justified (evs : list Event) : Prop :=
  match evs with
  | [] => True
  | delete_file nm _ :: older =>
    (exists f, reported older f /\ name f = nm) /\ deletions_justified older
  | _ :: older => deletions_justified older
  end.

(** Every handle of the cache is settled. *)
Definition cache_settled (c : Cache) : Prop :=
  forall u v shown, In (u, (v, shown)) c -> settled v.

(** The requests since the history [base] are about settled files, and the
    handle of the session and those of the cache are settled. *)
Definition sane (base : list Event) (c : Cache) (s : Session) (w : World) : Prop :=
  settled (uploaded_video_file_obj s) /\
  cache_settled c /\
  exists evs, net w = (evs ++ base)%list /\ Forall about_settled evs.

(** The handle of the session and those of the cache were reported since the
    history [base], and the deletions since then are justified. *)
Definition accounted (base : list Event) (c : Cache) (s : Session) (w : World) : Prop :=
  exists evs,
    net w = (evs ++ base)%list /\
    (forall f, uploaded_video_file_obj s = Some f -> reported evs f) /\
    (forall u f shown, In (u, (Some f, shown)) c -> reported evs f) /\
    deletions_justified evs.

(** A handle is kept only with the name of its file, and the chat is made of
    questions and their answers. *)
Definition paired (s : Session) : Prop :=
  (uploaded_video_file_obj s <> None -> uploaded_file_name s <> None) /\
  dialogue (messages s) = true.

(** The uploader of a run is empty or holds the file [u]. *)
Definition offers_only (u : UploadedFile) (i : Inputs) : Prop :=
  uploader i = None \/ uploader i = Some u.

(** The cache keeps a failure for [u], and the session has no handle. *)
Definition stuck (u : UploadedFile) (c : Cache) (s : Session) : Prop :=
  (exists shown, cached c u = Some (None, shown)) /\
  uploaded_video_file_obj s = None.

(** * Reasoning about runs *)

(** ** Total correctness rules for the monad *)

Lemma terminates_run {A} (m : M A) Q w :
  terminates m Q w <-> exists r w', m w = Some (r, w') /\ Q r w'.
Proof.
  unfold terminates. split.
  - destruct (m w) as [[r w']|]; [eauto | tauto].
  - intros (r & w' & E & H). now rewrite E.
Qed.

Lemma terminates_weaken {A} (m : M A) (Q Q' : Reply A -> World -> Prop) w :
  terminates m Q w -> (forall r w', Q r w' -> Q' r w') -> terminates m Q' w.
Proof.
  unfold terminates. destruct (m w) as [[r w']|]; auto.
Qed.

Lemma terminates_bind {A B} (m : M A) (k : A -> M B) Q w :
  terminates m (fun r w' => match r with
                            | Ok a => terminates (k a) Q w'
                            | Raise e => Q (Raise e) w'
                            end) w ->
  terminates (bind m k) Q w.
Proof.
  unfold terminates, bind. destruct (m w) as [[[a|e] w']|]; auto.
Qed.

Lemma terminates_catch {A} (m : M A) (h : Exn -> M A) Q w :
  terminates m (fun r w' => match r with
                            | Ok a => Q (Ok a) w'
                            | Raise e => terminates (h e) Q w'
                            end) w ->
  terminates (catch m h) Q w.
Proof.
  unfold terminates, catch. destruct (m w) as [[[a|e] w']|]; auto.
Qed.

(** The loop rule: an invariant [I], and a potential that every turn of the
    loop finds non-negative and lowers by [d] at least. *)
Lemma terminates_loop {S R} (step : S -> M (R + S))
    (I : S -> World -> Prop) (pot : S -> World -> Z) (d : Z) Q :
  (forall s w, I s w ->
     terminates (step s)
       (fun r w' => match r with
                    | Ok (inl x) => Q (Ok x) w'
                    | Ok (inr s') => I s' w' /\ 0 <= pot s w /\ pot s' w' <= pot s w - d
                    | Raise e => Q (Raise e) w'
                    end) w) ->
  forall fuel s w, I s w -> pot s w < Z.of_nat fuel * d ->
    terminates (loop step fuel s) Q w.
Proof.
  intros Hstep. induction fuel as [|fuel IH]; intros s w Hi Hp;
    specialize (Hstep s w Hi); cbn [loop]; apply terminates_bind;
    (eapply terminates_weaken; [exact Hstep|]); cbn beta;
    intros [[x|s']|e] w' H; try exact H.
  - destruct H as (_ & H0 & _). lia.
  - destruct H as (Hi' & H0 & Hd). apply IH; auto. lia.
Qed.

Lemma loop_unfold {S R} (step : S -> M (R + S)) fuel s :
  loop step fuel s =
  (x <- step s ;;
   match x with
   | inl r => ret r
   | inr s' =>
     match fuel with
     | O => spin
     | Datatypes.S fuel' => loop step fuel' s'
     end
   end).
Proof. destruct fuel; reflexivity. Qed.

(** More fuel does not change a run that has finished. *)
Lemma loop_more_fuel {S R} (step : S -> M (R + S)) fuel k s w out :
  loop step fuel s w = Some out -> loop step (fuel + k) s w = Some out.
Proof.
  revert s w. induction fuel as [|fuel IH]; intros s w;
    rewrite (loop_unfold step (_ + k)), (loop_unfold step);
    unfold bind; destruct (step s w) as [[[[x|s']|e] w']|]; auto.
  - discriminate.
  - cbn [Nat.add]. apply IH.
Qed.

Lemma loop_turns {S R} (step : S -> M (R + S)) n fuel s w s' w' :
  turns step n s w = Some (s', w') ->
  loop step (n + fuel) s w = loop step fuel s' w'.
Proof.
  revert s w. induction n as [|n IH]; intros s w; cbn [turns Nat.add].
  - now intros [= -> ->].
  - cbn [loop]. unfold bind at 1.
    destruct (step s w) as [[[[x|s1]|e] w1]|]; try discriminate.
    apply IH.
Qed.

(** ** Rules for the primitives *)

Lemma terminates_ret {A} (a : A) (Q : Reply A -> World -> Prop) w :
  Q (Ok a) w -> terminates (ret a) Q w.
Proof. exact (fun H => H). Qed.

Lemma terminates_show l msg (Q : Reply unit -> World -> Prop) w :
  Q (Ok tt) (mkWorld (clock w) (disk w) (Show l msg :: ui w) (net w)) ->
  terminates (show l msg) Q w.
Proof. exact (fun H => H). Qed.

Lemma terminates_rerun (Q : Reply unit -> World -> Prop) w :
  Q (Ok tt) (mkWorld (clock w) (disk w) (Rerun :: ui w) (net w)) ->
  terminates st_rerun Q w.
Proof. exact (fun H => H). Qed.

Lemma terminates_time b (Q : Reply Z -> World -> Prop) w :
  Q (Ok (clock w + Z.of_N (pause b (net w)))) (advance (pause b (net w)) w) ->
  terminates (time_time b) Q w.
Proof. exact (fun H => H). Qed.

Lemma terminates_sleep d (Q : Reply unit -> World -> Prop) w :
  Q (Ok tt) (advance (Z.to_N d) w) -> terminates (time_sleep d) Q w.
Proof. exact (fun H => H). Qed.

Lemma terminates_exists p (Q : Reply bool -> World -> Prop) w :
  Q (Ok (existsb (String.eqb p) (disk w))) w -> terminates (os_path_exists p) Q w.
Proof. exact (fun H => H). Qed.

Lemma terminates_unlink p (Q : Reply unit -> World -> Prop) w :
  existsb (String.eqb p) (disk w) = true ->
  Q (Ok tt) (mkWorld (clock w) (filter (fun q => negb (String.eqb p q)) (disk w))
                     (ui w) (net w)) ->
  terminates (os_unlink p) Q w.
Proof. unfold terminates, os_unlink. now intros ->. Qed.

Lemma terminates_request {A} (ans : N * Reply A) ev (Q : Reply A -> World -> Prop) w :
  Q (snd ans) (mkWorld (clock w + Z.of_N (fst ans)) (disk w) (ui w)
                       (ev (snd ans) :: net w)) ->
  terminates (request ans ev) Q w.
Proof. unfold terminates, request. now destruct (snd ans). Qed.

Lemma unlinked p l : ~ In p (filter (fun q => negb (String.eqb p q)) l).
Proof.
  intros H. apply filter_In in H. destruct H as [_ H].
  now rewrite String.eqb_refl in H.
Qed.

Lemma existsb_In p l : existsb (String.eqb p) l = true <-> In p l.
Proof.
  rewrite existsb_exists. split.
  - intros (q & Hq & E). apply String.eqb_eq in E. now subst.
  - intros H. exists p. split; [assumption | apply String.eqb_refl].
Qed.

(** ** The shape of a run of the upload *)

Ltac world := cbn [clock disk ui net advance fst snd].

Section UploadRuns.

Variable b : Backend.
Variables polling_interval max_polling_time : Z.
Hypothesis interval_positive : 0 < polling_interval.

Variables (u : UploadedFile) (p : string) (w0 : World).
Hypothesis staged : existsb (String.eqb p) (disk w0) = true.

Lemma on_exception_exits e evs w :
  net w = (evs ++ net w0)%list ->
  polled p evs ->
  last_report evs = Some (Raise e) ->
  disk w = disk w0 ->
  terminates (on_exception (Some p) e) (exits max_polling_time u p w0) w.
Proof.
  intros Hn Hp Hl Hd. unfold on_exception.
  apply terminates_bind, terminates_show. world.
  apply terminates_bind, terminates_bind, terminates_exists. world.
  rewrite Hd, staged.
  apply terminates_unlink; world; [exact staged|].
  apply terminates_ret.
  exists (transport_error e), evs. world. repeat split; auto.
Qed.

Lemma poll_step_polling start video_file w :
  polling p w0 video_file w ->
  terminates (poll_step b polling_interval max_polling_time p start video_file)
    (fun r w' =>
       match r with
       | Ok (inl returned_None) => exits max_polling_time u p w0 (Ok None) w'
       | Ok (inl (fell_through f)) =>
           polling p w0 f w' /\ state_name f <> "PROCESSING"
       | Ok (inr f) =>
           polling p w0 f w' /\
           0 <= max_polling_time - (clock w - start) /\
           max_polling_time - (clock w' - start)
             <= max_polling_time - (clock w - start) - polling_interval
       | Raise e => terminates (on_exception (Some p) e) (exits max_polling_time u p w0) w'
       end) w.
Proof.
  intros (evs & Hn & Hp & Hl & Hd). unfold poll_step.
  destruct (String.eqb_spec (state_name video_file) "PROCESSING") as [E|E].
  - apply terminates_bind, terminates_time. world.
    destruct (Z.gtb_spec (clock w + Z.of_N (pause b (net w)) - start) max_polling_time) as [G|G].
    + apply terminates_bind, terminates_show. world.
      apply terminates_bind, terminates_unlink; world; [now rewrite Hd|].
      apply terminates_ret.
      exists (timeout video_file), evs. world. rewrite Hd. repeat split; auto.
    + apply terminates_bind, terminates_sleep. world.
      apply terminates_bind. unfold genai_get_file. apply terminates_request. world.
      destruct (on_get b (net w) (name video_file)) as [lat [f|e]]; world.
      * apply terminates_bind, terminates_show, terminates_ret. world.
        split; [|lia].
        exists (get_file (name video_file) (Ok f) :: evs). rewrite Hn.
        repeat split; auto. now apply polled_again.
      * apply on_exception_exits with (evs := get_file (name video_file) (Raise e) :: evs);
          world; auto.
        -- now rewrite Hn.
        -- now apply polled_again.
  - apply terminates_ret. split; [exists evs|]; auto.
Qed.

Lemma after_loop_exits f w :
  polling p w0 f w -> state_name f <> "PROCESSING" ->
  terminates (after_loop u p (fell_through f))
    (fun r w' =>
       match r with
       | Ok a => exits max_polling_time u p w0 (Ok a) w'
       | Raise e => terminates (on_exception (Some p) e) (exits max_polling_time u p w0) w'
       end) w.
Proof.
  intros (evs & Hn & Hp & Hl & Hd) E. cbn [after_loop].
  destruct (String.eqb_spec (state_name f) "FAILED") as [F|F].
  - apply terminates_bind, terminates_show. world.
    apply terminates_bind, terminates_unlink; world; [now rewrite Hd|].
    apply terminates_ret.
    exists (remote_failure f), evs. world. rewrite Hd. repeat split; auto.
  - apply terminates_bind, terminates_unlink; world; [now rewrite Hd|].
    apply terminates_bind, terminates_show, terminates_ret. world.
    exists (ready f), evs. world. rewrite Hd. repeat split; auto.
Qed.

(** Every run past the staging finishes, in one of the four ways. *)
Lemma upload_and_poll_exits fuel :
  max_polling_time < Z.of_nat fuel * polling_interval ->
  terminates
    (catch (upload_and_poll b polling_interval max_polling_time fuel u p)
           (on_exception (Some p)))
    (exits max_polling_time u p w0) w0.
Proof.
  intros Hfuel. apply terminates_catch. unfold upload_and_poll.
  apply terminates_bind. unfold genai_upload_file. apply terminates_request. world.
  destruct (on_upload b (net w0) p) as [lat [vf|e]]; world.
  - apply terminates_bind, terminates_show. world.
    apply terminates_bind, terminates_time. world.
    apply terminates_bind. unfold poll.
    match goal with |- terminates _ _ ?w1 =>
      apply terminates_loop with
        (I := polling p w0)
        (pot := fun (_ : File) w => max_polling_time - (clock w - clock w1))
        (d := polling_interval)
    end; world.
    + intros f w Hf. eapply terminates_weaken; [apply poll_step_polling, Hf|].
      intros [[[|f']|f']|e] w'; cbn beta iota; auto.
      intros [H1 H2]. now apply after_loop_exits.
    + exists [upload_file p (Ok vf)]. repeat split; auto. constructor.
    + lia.
  - apply on_exception_exits with (evs := [upload_file p (Raise e)]); world; auto.
    constructor.
Qed.

End UploadRuns.

(** ** The staging of the temporary copy *)

Section Staging.

Variable b : Backend.
Variables polling_interval max_polling_time : Z.
Variables (fuel : nat) (u : UploadedFile) (w : World).

Lemma upload_and_await_staged p :
  on_tempfile b (disk w) (uf_name u) = Ok p ->
  on_write b p (getvalue u) = Ok tt ->
  upload_and_await b polling_interval max_polling_time fuel (Some u) w =
  catch (upload_and_poll b polling_interval max_polling_time fuel u p)
        (on_exception (Some p)) (staged_world u p w).
Proof.
  intros Ht Hw.
  unfold upload_and_await, stage, NamedTemporaryFile, tmp_write, bind at 1, catch at 1.
  unfold bind at 1. unfold bind at 1. rewrite Ht. cbn [disk clock ui net].
  unfold bind at 1. rewrite Hw. reflexivity.
Qed.

(** No temporary file could be made: nothing to release. *)
Lemma upload_and_await_no_tempfile e :
  on_tempfile b (disk w) (uf_name u) = Raise e ->
  upload_and_await b polling_interval max_polling_time fuel (Some u) w =
  Some (Ok None,
        mkWorld (clock w) (disk w) (Show Error (msg_upload_exception e) :: ui w) (net w)).
Proof.
  intros Ht.
  unfold upload_and_await, stage, NamedTemporaryFile, bind at 1, catch at 1.
  unfold bind at 1. unfold bind at 1. now rewrite Ht.
Qed.

(** The write failed: the file was made, [tmp_file_path] is not bound yet,
    and the handler leaves the file where it is. *)
Lemma upload_and_await_write_failed p e :
  on_tempfile b (disk w) (uf_name u) = Ok p ->
  on_write b p (getvalue u) = Raise e ->
  upload_and_await b polling_interval max_polling_time fuel (Some u) w =
  Some (Ok None,
        mkWorld (clock w) (p :: disk w)
                (Show Error (msg_upload_exception e) :: ui w) (net w)).
Proof.
  intros Ht Hw.
  unfold upload_and_await, stage, NamedTemporaryFile, tmp_write, bind at 1, catch at 1.
  unfold bind at 1. unfold bind at 1. rewrite Ht. cbn [disk clock ui net].
  unfold bind at 1. now rewrite Hw.
Qed.

Lemma upload_and_await_exits p :
  0 < polling_interval ->
  max_polling_time < Z.of_nat fuel * polling_interval ->
  on_tempfile b (disk w) (uf_name u) = Ok p ->
  on_write b p (getvalue u) = Ok tt ->
  exists r w',
    upload_and_await b polling_interval max_polling_time fuel (Some u) w = Some (r, w') /\
    exits max_polling_time u p (staged_world u p w) r w'.
Proof.
  intros Hi Hf Ht Hw. rewrite (upload_and_await_staged p Ht Hw).
  apply terminates_run, upload_and_poll_exits; auto.
  cbn. now rewrite String.eqb_refl.
Qed.

End Staging.

(** The function always returns, and never lets an exception out. *)
Lemma upload_video_to_gemini_returns b uploaded_file w :
  exists v w', upload_video_to_gemini b uploaded_file w = Some (Ok v, w').
Proof.
  unfold upload_video_to_gemini. destruct uploaded_file as [u|]; [|now exists None, w].
  destruct (on_tempfile b (disk w) (uf_name u)) as [p|e] eqn:Ht.
  - destruct (on_write b p (getvalue u)) as [[]|e] eqn:Hw.
    + destruct (upload_and_await_exits b 5 300 61 u w p) as (r & w' & E & x & evs & -> & _);
        auto; try lia.
      eauto.
    + rewrite (upload_and_await_write_failed _ _ _ _ _ _ p e); eauto.
  - rewrite (upload_and_await_no_tempfile _ _ _ _ _ _ e); eauto.
Qed.


(** ** Facts about the requests of a run *)


Lemma polled_older_processing p evs :
  polled p evs -> Forall reports_processing (tl evs).
Proof.
  induction 1 as [r|f r evs H IH Hl Hs]; cbn [tl]; [constructor|].
  destruct evs as [|ev evs']; [inversion H|].
  constructor; [now exists f | exact IH].
Qed.

Lemma polled_no_deletion p evs nm r :
  polled p evs -> ~ In (delete_file nm r) evs.
Proof.
  induction 1 as [r0|f r0 evs H IH Hl Hs]; intros [E|E]; try discriminate; auto.
Qed.


(** Every run of the function on an uploaded file finishes, either at the
    staging or in one of the four ways out after it. *)
Lemma upload_and_await_cases b polling_interval max_polling_time fuel u w :
  0 < polling_interval ->
  max_polling_time < Z.of_nat fuel * polling_interval ->
  exists r w',
    upload_and_await b polling_interval max_polling_time fuel (Some u) w = Some (r, w') /\
    ((exists e, staging_fails b u w e /\ r = Ok None /\ net w' = net w /\
                hd_error (ui w') = Some (Show Error (msg_upload_exception e))) \/
     (exists p, on_tempfile b (disk w) (uf_name u) = Ok p /\
                on_write b p (getvalue u) = Ok tt /\
                exits max_polling_time u p (staged_world u p w) r w')).
Proof.
  intros Hi Hf.
  destruct (on_tempfile b (disk w) (uf_name u)) as [p|e] eqn:Ht.
  - destruct (on_write b p (getvalue u)) as [[]|e] eqn:Hw.
    + destruct (upload_and_await_exits b _ _ fuel u w p Hi Hf Ht Hw) as (r & w' & E & H).
      exists r, w'. split; [exact E|]. right. now exists p.
    + rewrite (upload_and_await_write_failed _ _ _ _ _ _ p e Ht Hw).
      do 2 eexists. split; [reflexivity|]. left. exists e.
      repeat split. right. now exists p.
  - rewrite (upload_and_await_no_tempfile _ _ _ _ _ _ e Ht).
    do 2 eexists. split; [reflexivity|]. left. exists e.
    repeat split. now left.
Qed.

(** Only the newest request of a run can have been answered by anything
    but a PROCESSING report. *)
Lemma polled_newest p evs ev rep :
  polled p evs -> In ev evs -> report_of ev = Some rep ->
  (forall f, rep = Ok f -> state_name f <> "PROCESSING") ->
  exists older, evs = ev :: older.
Proof.
  intros Hp Hin Hr Hn. pose proof (polled_older_processing _ _ Hp) as Ho.
  destruct evs as [|ev0 older]; [contradiction|]. destruct Hin as [->|Hin]; [eauto|].
  cbn [tl] in Ho. rewrite Forall_forall in Ho.
  destruct (Ho ev Hin) as (f & Hf & Hs). rewrite Hr in Hf. injection Hf as ->.
  now destruct (Hn f eq_refl).
Qed.

(** * The claims *)

(** ** Returns of the upload *)




(** Once the temporary copy is staged, [upload_video_to_gemini] returns with
    that file unlinked, on each of its four ways out: success, failure
    reported by the service, time-out, and exception raised by a request. *)
Lemma staged_file_is_released b u w p :
  on_tempfile b (disk w) (uf_name u) = Ok p ->
  on_write b p (getvalue u) = Ok tt ->
  exists x w',
    upload_video_to_gemini b (Some u) w = Some (Ok (result_of x), w') /\
    hd_error (ui w') = Some (last_words 300 u x) /\
    admissible x /\
    ~ In p (disk w').
Proof.
  intros Ht Hw. unfold upload_video_to_gemini.
  destruct (upload_and_await_exits b 5 300 61 u w p) as (r & w' & E & H); try lia; auto.
  destruct H as (x & evs & -> & _ & _ & _ & Ha & Hu & Hd).
  exists x, w'. repeat split; auto. rewrite Hd. apply unlinked.
Qed.

(** C7 fails on one way out.  When the write into the temporary file raises,
    the file has been created (it is made with [delete=False]) but
    [tmp_file_path] is not bound yet: the handler reports the error, finds
    no ['tmp_file_path' in locals()], and returns [None] with the file still
    on the disk. *)
Theorem failed_write_leaves_the_temporary_file b u w p e :
  on_tempfile b (disk w) (uf_name u) = Ok p ->
  on_write b p (getvalue u) = Raise e ->
  exists w',
    upload_video_to_gemini b (Some u) w = Some (Ok None, w') /\
    hd_error (ui w') = Some (Show Error (msg_upload_exception e)) /\
    net w' = net w /\
    In p (disk w').
Proof.
  intros Ht Hw. unfold upload_video_to_gemini.
  rewrite (upload_and_await_write_failed _ _ _ _ _ _ p e Ht Hw).
  eexists. split; [reflexivity|]. repeat split. now left.
Qed.

(** The disk fills up during the write. *)
Lemma failed_write_leaves_the_temporary_file_witness :
  exists w',
    upload_video_to_gemini full_disk (Some clip) fresh = Some (Ok None, w') /\
    In tmp_path (disk w').
Proof.
  destruct (failed_write_leaves_the_temporary_file full_disk clip fresh tmp_path
              (mkExn "[Errno 28] No space left on device") eq_refl eq_refl)
    as (w' & E & _ & _ & Hd).
  exists w'. split; [exact E | exact Hd].
Defined.

(** ** Runs of the query *)

Lemma get_gemini_response_cases b system_prompt f user_prompt w :
  let ans := on_generate b (net w) (asked system_prompt f user_prompt) 600 in
  let w1 := mkWorld (clock w + Z.of_N (fst ans)) (disk w)
                    (Show Info msg_thinking :: ui w)
                    (generate_content (asked system_prompt f user_prompt) 600 (snd ans)
                       :: net w) in
  let sorry e := Some (Ok msg_sorry,
                       mkWorld (clock w1) (disk w1)
                               (Show Error (msg_generation_exception e) :: ui w1)
                               (net w1)) in
  get_gemini_response b system_prompt (Some f) user_prompt w =
  match snd ans with
  | Ok response =>
    match candidates response with
    | [] => Some (Ok msg_no_response, w1)
    | _ :: _ =>
      match text response with
      | Ok t => Some (Ok t, w1)
      | Raise e => sorry e
      end
    end
  | Raise e => sorry e
  end.
Proof.
  cbn zeta. unfold get_gemini_response, catch, bind, model_generate_content, request.
  fold (asked system_prompt f user_prompt). cbn [st_info show clock disk ui net].
  destruct (on_generate b (net w) (asked system_prompt f user_prompt) 600)
    as [lat [[cs [t|e]]|e]]; cbn [fst snd candidates text]; try reflexivity;
    destruct cs; reflexivity.
Qed.

(** C2 (as amended).  The query looks only at whether there is a file object:
    without one it answers with a fixed message and requests nothing; with
    one, whatever its state, it sends the generation request. *)
Theorem query_checks_presence_only b system_prompt user_prompt w :
  get_gemini_response b system_prompt None user_prompt w = Some (Ok msg_upload_first, w) /\
  forall f, exists r w',
    get_gemini_response b system_prompt (Some f) user_prompt w = Some (Ok r, w') /\
    net w' = generate_content (asked system_prompt f user_prompt) 600
               (snd (on_generate b (net w) (asked system_prompt f user_prompt) 600))
             :: net w.
Proof.
  split; [reflexivity|]. intros f. rewrite get_gemini_response_cases. cbn zeta.
  destruct (snd (on_generate b (net w) (asked system_prompt f user_prompt) 600))
    as [[[|c cs] [t|e]]|e]; cbn [candidates text]; eauto.
Qed.

(** C2 (as stated) fails: asked about a file that is still PROCESSING, the
    query sends the request and returns the model's text. *)
Lemma query_on_processing_file_is_sent :
  exists w',
    get_gemini_response (scripted (fun _ => "PROCESSING")) "You are a fitness trainer."
      (Some (remote "PROCESSING")) "Is my squat deep enough?" fresh
    = Some (Ok "Keep your back straight.", w') /\
    net w' = [generate_content
                (asked "You are a fitness trainer." (remote "PROCESSING")
                       "Is my squat deep enough?") 600 (Ok answer)].
Proof. eexists. split; vm_compute; reflexivity. Qed.

(** C6 (as amended).  When the model produces no candidate, the query has
    made its one request, raises nothing, shows no error box, does not read
    [response.text], and returns the fixed sentence [msg_no_response].  The
    sentence comes back as an ordinary string: a model that answers with this
    very text leaves the caller with the same reply and the same page. *)
Theorem no_candidates_is_answered_by_a_fixed_sentence b system_prompt f user_prompt w response :
  snd (on_generate b (net w) (asked system_prompt f user_prompt) 600) = Ok response ->
  candidates response = [] ->
  get_gemini_response b system_prompt (Some f) user_prompt w
  = Some (Ok msg_no_response,
          mkWorld (clock w
                   + Z.of_N (fst (on_generate b (net w)
                                    (asked system_prompt f user_prompt) 600)))
                  (disk w)
                  (Show Info msg_thinking :: ui w)
                  (generate_content (asked system_prompt f user_prompt) 600 (Ok response)
                     :: net w)) /\
  forall b' response',
    snd (on_generate b' (net w) (asked system_prompt f user_prompt) 600) = Ok response' ->
    candidates response' <> [] ->
    text response' = Ok msg_no_response ->
    exists w'',
      get_gemini_response b' system_prompt (Some f) user_prompt w
      = Some (Ok msg_no_response, w'') /\
      ui w'' = Show Info msg_thinking :: ui w /\
      disk w'' = disk w.
Proof.
  intros Hg Hc. split.
  - rewrite get_gemini_response_cases. cbn zeta. now rewrite Hg, Hc.
  - intros b' response' Hg' Hc' Ht'. rewrite get_gemini_response_cases. cbn zeta.
    rewrite Hg'. destruct (candidates response'); [contradiction|]. rewrite Ht'.
    eexists. split; [reflexivity|]. split; reflexivity.
Qed.

(** The silent model, asked about an ACTIVE file. *)
Lemma no_candidates_is_answered_by_a_fixed_sentence_witness :
  get_gemini_response silent "You are a fitness trainer." (Some (remote "ACTIVE"))
    "Is my squat deep enough?" fresh
  = Some (Ok msg_no_response,
          mkWorld 0 [] [Show Info msg_thinking]
                  [generate_content
                     (asked "You are a fitness trainer." (remote "ACTIVE")
                            "Is my squat deep enough?") 600
                     (Ok (mkResponse [] (Raise (mkExn "ValueError"))))]).
Proof.
  exact (proj1 (no_candidates_is_answered_by_a_fixed_sentence silent
                  "You are a fitness trainer." (remote "ACTIVE") "Is my squat deep enough?"
                  fresh (mkResponse [] (Raise (mkExn "ValueError"))) eq_refl eq_refl)).
Defined.

(** C6 (as stated) fails: the reply to a question that got no candidate is
    not told from generated text.  The silent model and a model that answers
    with the sentence of line 123 leave the caller with the same string, the
    same page, the same disk and the same clock. *)
Lemma fixed_sentence_is_not_told_from_generated_text :
  snd (on_generate silent []
         (asked "You are a fitness trainer." (remote "ACTIVE") "Is my squat deep enough?")
         600)
  = Ok (mkResponse [] (Raise (mkExn "ValueError"))) /\
  snd (on_generate (parrot msg_no_response) []
         (asked "You are a fitness trainer." (remote "ACTIVE") "Is my squat deep enough?")
         600)
  = Ok (mkResponse ["candidate"] (Ok msg_no_response)) /\
  exists r w1 w2,
    get_gemini_response silent "You are a fitness trainer." (Some (remote "ACTIVE"))
      "Is my squat deep enough?" fresh = Some (Ok r, w1) /\
    get_gemini_response (parrot msg_no_response) "You are a fitness trainer."
      (Some (remote "ACTIVE")) "Is my squat deep enough?" fresh = Some (Ok r, w2) /\
    ui w1 = ui w2 /\ disk w1 = disk w2 /\ clock w1 = clock w2.
Proof.
  split; [reflexivity|]. split; [reflexivity|].
  do 3 eexists. split; [vm_compute; reflexivity|]. split; [vm_compute; reflexivity|].
  repeat split.
Qed.

(** ** Presses of the button *)

Ltac run_release :=
  unfold clear_chat_and_remove_video, remove_from_server, bind, catch,
    genai_get_file, genai_delete_file, request, st_sidebar_success,
    st_sidebar_warning, show, st_rerun, ret;
  cbn [clock disk ui net fst snd].

(** A press of the button always ends with the handle cleared and the chat
    emptied, whatever the service answers; what it shows is at most one box
    of the sidebar. *)
Lemma clear_chat_and_remove_video_returns b s w :
  exists w' note,
    clear_chat_and_remove_video b s w
    = Some (Ok (mkSession [] None None (upload_key s + 1)), w') /\
    ui w' = Rerun :: (note ++ ui w)%list /\
    Forall sidebar note.
Proof.
  run_release. destruct (uploaded_video_file_obj s) as [obj|];
    [|eexists; exists []; repeat split; constructor].
  destruct (on_get b (net w) (name obj)) as [lat [f|e]]; cbn [fst snd];
    [|eexists; eexists [_]; repeat split; repeat constructor].
  destruct (state_name f =? "ACTIVE")%string; cbn [clock disk ui net];
    [|eexists; eexists [_]; repeat split; repeat constructor].
  destruct (on_delete b _ (name obj)) as [lat' [[]|e]]; cbn [fst snd];
    eexists; eexists [_]; repeat split; repeat constructor.
Qed.

(** C10.  The button asks the service for the file's state first.  It
    requests the deletion exactly when the answer is ACTIVE; for any other
    state it shows a warning and requests nothing more, and so it does when
    the service cannot find the file.  The handle is cleared in all cases. *)
Theorem release_deletes_active_files_only b s w obj :
  uploaded_video_file_obj s = Some obj ->
  exists s' w' evs,
    clear_chat_and_remove_video b s w = Some (Ok s', w') /\
    uploaded_video_file_obj s' = None /\
    net w' = (evs ++ net w)%list /\
    (forall f, snd (on_get b (net w) (name obj)) = Ok f ->
       state_name f = "ACTIVE" ->
       exists r, evs = [delete_file (name obj) r; get_file (name obj) (Ok f)]) /\
    (forall f, snd (on_get b (net w) (name obj)) = Ok f ->
       state_name f <> "ACTIVE" ->
       evs = [get_file (name obj) (Ok f)] /\
       ui w' = Rerun :: Show SidebarWarning (msg_skipping (name obj) (state_name f))
                 :: ui w) /\
    (forall e, snd (on_get b (net w) (name obj)) = Raise e ->
       evs = [get_file (name obj) (Raise e)] /\
       ui w' = Rerun :: Show SidebarWarning (msg_could_not_remove e) :: ui w).
Proof.
  intros Hs. run_release. rewrite Hs.
  destruct (on_get b (net w) (name obj)) as [lat [f|e]]; cbn [fst snd].
  - destruct (String.eqb_spec (state_name f) "ACTIVE") as [A|A]; cbn [clock disk ui net].
    + destruct (on_delete b _ (name obj)) as [lat' [[]|e]] eqn:D; cbn [fst snd];
        do 2 eexists;
        eexists [delete_file (name obj) _; get_file (name obj) (Ok f)];
        (split; [reflexivity|]); (split; [reflexivity|]); (split; [reflexivity|]);
        (split; [intros ? [= <-] _; eauto|]);
        (split; [intros ? [= <-] N; contradiction | discriminate]).
    + do 2 eexists; exists [get_file (name obj) (Ok f)];
        (split; [reflexivity|]); (split; [reflexivity|]); (split; [reflexivity|]).
      split; [intros ? [= <-] N; contradiction|].
      split; [intros ? [= <-] _; split; reflexivity | discriminate].
  - do 2 eexists; exists [get_file (name obj) (Raise e)];
      (split; [reflexivity|]); (split; [reflexivity|]); (split; [reflexivity|]).
    split; [discriminate|]. split; [discriminate|].
    intros ? [= <-]. split; reflexivity.
Qed.

(** A file that the service reports as FAILED is left on the server. *)
Lemma release_deletes_active_files_only_witness :
  exists w',
    clear_chat_and_remove_video (scripted (fun _ => "FAILED"))
      (mkSession [] (Some (remote "ACTIVE")) (Some "squat.mp4") 1) fresh
    = Some (Ok (mkSession [] None None 2), w') /\
    net w' = [get_file "files/abc123" (Ok (remote "FAILED"))].
Proof.
  destruct (release_deletes_active_files_only (scripted (fun _ => "FAILED"))
              (mkSession [] (Some (remote "ACTIVE")) (Some "squat.mp4") 1) fresh
              (remote "ACTIVE") eq_refl)
    as (s' & w' & evs & E & _ & N & _ & H & _).
  destruct (H (remote "FAILED") eq_refl) as [-> _]; [discriminate|].
  exists w'. split; [|exact N].
  rewrite E. vm_compute in E. now injection E as <- _.
Defined.

(** C8.  Pressing the button twice: the first press clears the handle, the
    chat and the file name, whatever the service answers; the second press
    finds no handle, requests nothing from the service, raises nothing, and
    leaves handle, chat and file name as they were (the key of the uploader
    widget is advanced by every press).  When the service rejects the
    deletion, the first press shows a warning and clears the handle all the
    same. *)
Theorem release_is_idempotent b s w :
  exists s1 w1 s2 w2,
    clear_chat_and_remove_video b s w = Some (Ok s1, w1) /\
    clear_chat_and_remove_video b s1 w1 = Some (Ok s2, w2) /\
    uploaded_video_file_obj s1 = None /\
    uploaded_video_file_obj s2 = uploaded_video_file_obj s1 /\
    messages s2 = messages s1 /\
    uploaded_file_name s2 = uploaded_file_name s1 /\
    upload_key s2 = upload_key s1 + 1 /\
    net w2 = net w1 /\
    ui w2 = Rerun :: ui w1 /\
    (forall obj f e,
       uploaded_video_file_obj s = Some obj ->
       snd (on_get b (net w) (name obj)) = Ok f ->
       state_name f = "ACTIVE" ->
       snd (on_delete b (get_file (name obj) (Ok f) :: net w) (name obj)) = Raise e ->
       ui w1 = Rerun :: Show SidebarWarning (msg_could_not_remove e) :: ui w).
Proof.
  destruct (clear_chat_and_remove_video_returns b s w) as (w1 & note & E1 & _).
  exists (mkSession [] None None (upload_key s + 1)), w1,
         (mkSession [] None None (upload_key s + 1 + 1)),
         (mkWorld (clock w1) (disk w1) (Rerun :: ui w1) (net w1)).
  split; [exact E1|]. do 8 (split; [reflexivity|]).
  intros obj f e Hs Hg Ha Hd. revert E1. run_release. rewrite Hs.
  destruct (on_get b (net w) (name obj)) as [lat r]. cbn [fst snd] in Hg |- *.
  subst r. rewrite Ha. cbn [String.eqb Ascii.eqb Bool.eqb].
  cbn [clock disk ui net].
  destruct (on_delete b _ (name obj)) as [lat' r']. cbn [fst snd] in Hd |- *.
  subst r'. now intros [= <-].
Qed.

(** The service refuses the deletion: a warning, and the handle is cleared. *)
Lemma release_is_idempotent_witness :
  exists w1,
    clear_chat_and_remove_video refusing
      (mkSession [("user", "Is my squat deep enough?")] (Some (remote "ACTIVE"))
                 (Some "squat.mp4") 1) fresh
    = Some (Ok (mkSession [] None None 2), w1) /\
    ui w1 = [Rerun;
             Show SidebarWarning (msg_could_not_remove (mkExn "403 permission denied"))].
Proof.
  destruct (release_is_idempotent refusing
              (mkSession [("user", "Is my squat deep enough?")] (Some (remote "ACTIVE"))
                         (Some "squat.mp4") 1) fresh)
    as (s1 & w1 & s2 & w2 & E1 & _ & _ & _ & _ & _ & _ & _ & _ & H).
  exists w1. split.
  - rewrite E1. vm_compute in E1. now injection E1 as <- _.
  - exact (H (remote "ACTIVE") (remote "ACTIVE") (mkExn "403 permission denied")
             eq_refl eq_refl eq_refl eq_refl).
Defined.

(** ** Errors *)

(** What the exit of a run past the staging says about its requests. *)
Lemma exit_of_last_report x rep :
  Some rep = Some (last_reply x) -> admissible x ->
  (forall e, rep = Raise e -> x = transport_error e) /\
  (forall f, rep = Ok f -> state_name f = "FAILED" -> x = remote_failure f) /\
  (forall f, rep = Ok f -> state_name f = "PROCESSING" -> x = timeout f).
Proof.
  intros [= ->] Ha.
  destruct x as [f0|f0|f0|e0]; cbn in Ha |- *; repeat split;
    try discriminate; intros ? [= <-]; try reflexivity; intros Hs;
    try reflexivity; try (destruct Ha; contradiction);
    rewrite Ha in Hs; discriminate.
Qed.







(** ** Scenarios of the polling *)

Ltac step :=
  first [ apply terminates_bind
        | apply terminates_show
        | apply terminates_time
        | apply terminates_sleep
        | apply terminates_ret
        | apply terminates_request ];
  world.

Section Turns.

Variable b : Backend.
Variables polling_interval max_polling_time : Z.
Variables (p : string) (start_time : Z).

Lemma poll_step_again f f' w :
  state_name f = "PROCESSING" ->
  clock w + Z.of_N (pause b (net w)) - start_time <= max_polling_time ->
  snd (on_get b (net w) (name f)) = Ok f' ->
  poll_step b polling_interval max_polling_time p start_time f w = Some (Ok (inr f'), turned b polling_interval f f' w).
Proof.
  destruct w as [c d m h]. intros Hs Ht Hg. unfold poll_step, turned.
  cbn [clock disk ui net] in *.
  rewrite Hs, String.eqb_refl.
  unfold bind, time_time, time_sleep, genai_get_file, request, st_info, show, ret.
  cbn [clock disk ui net advance].
  destruct (Z.gtb_spec (c + Z.of_N (pause b h) - start_time) max_polling_time);
    [lia|].
  cbn [clock disk ui net advance]. now rewrite Hg.
Qed.

Lemma poll_step_give_up f w :
  state_name f = "PROCESSING" ->
  clock w + Z.of_N (pause b (net w)) - start_time > max_polling_time ->
  existsb (String.eqb p) (disk w) = true ->
  poll_step b polling_interval max_polling_time p start_time f w = Some (Ok (inl returned_None), given_up b max_polling_time p w).
Proof.
  destruct w as [c d m h]. intros Hs Ht Hd. unfold poll_step, given_up.
  cbn [clock disk ui net] in *.
  rewrite Hs, String.eqb_refl.
  unfold bind, time_time, os_unlink, st_error, show, ret.
  cbn [clock disk ui net advance].
  destruct (Z.gtb_spec (c + Z.of_N (pause b h) - start_time) max_polling_time);
    [|lia].
  cbn [clock disk ui net advance]. now rewrite Hd.
Qed.

Lemma poll_step_leave f w :
  state_name f <> "PROCESSING" ->
  poll_step b polling_interval max_polling_time p start_time f w = Some (Ok (inl (fell_through f)), w).
Proof.
  intros Hs. unfold poll_step.
  now destruct (String.eqb_spec (state_name f) "PROCESSING").
Qed.

(** A turn of the loop is a poll answered while the wait was within
    [max_polling_time]. *)
Lemma poll_step_turn f w f' w' :
  poll_step b polling_interval max_polling_time p start_time f w = Some (Ok (inr f'), w') ->
  state_name f = "PROCESSING" /\
  clock w + Z.of_N (pause b (net w)) - start_time <= max_polling_time /\
  snd (on_get b (net w) (name f)) = Ok f' /\
  w' = turned b polling_interval f f' w.
Proof.
  destruct w as [c d m h]. unfold poll_step, turned.
  cbn [clock disk ui net] in *.
  destruct (String.eqb_spec (state_name f) "PROCESSING") as [Hs|Hs]; [|discriminate].
  unfold bind, time_time, time_sleep, genai_get_file, request, st_info, st_error,
    os_unlink, show, ret.
  cbn [clock disk ui net advance].
  destruct (Z.gtb_spec (c + Z.of_N (pause b h) - start_time) max_polling_time).
  - cbn [clock disk ui net advance].
    destruct (existsb (String.eqb p) d); discriminate.
  - cbn [clock disk ui net advance].
    destruct (snd (on_get b h (name f))) as [f1|e]; [|discriminate].
    intros [= <- <-]. auto.
Qed.

End Turns.

Lemma terminates_loop_turn {S R} (step : S -> M (R + S)) fuel s w s' w' Q :
  step s w = Some (Ok (inr s'), w') ->
  terminates (loop step fuel s') Q w' ->
  terminates (loop step (Datatypes.S fuel) s) Q w.
Proof.
  intros E H. cbn [loop]. unfold terminates, bind. now rewrite E.
Qed.

Lemma terminates_loop_exit {S R} (step : S -> M (R + S)) fuel s w r w' (Q : _ -> _ -> Prop) :
  step s w = Some (Ok (inl r), w') ->
  Q (Ok r) w' ->
  terminates (loop step fuel s) Q w.
Proof.
  intros E H. rewrite loop_unfold. unfold terminates, bind. now rewrite E.
Qed.

Lemma terminates_turns {S R} (step : S -> M (R + S)) n fuel s w s' w' Q :
  turns step n s w = Some (s', w') ->
  terminates (loop step fuel s') Q w' ->
  terminates (loop step (n + fuel) s) Q w.
Proof.
  intros E H. unfold terminates. now rewrite (loop_turns step n fuel s w s' w' E).
Qed.

(** What [n] turns of the loop leave behind: the disk as it was, [n] polls
    and nothing else requested, and a wait that was within
    [max_polling_time] when the last of them began. *)
Lemma turns_of_poll_step b polling_interval max_polling_time p start_time n :
  0 <= polling_interval ->
  forall f0 w0 f w1,
    turns (poll_step b polling_interval max_polling_time p start_time) n f0 w0
    = Some (f, w1) ->
    disk w1 = disk w0 /\
    (exists evs, net w1 = (evs ++ net w0)%list /\ polls evs = n /\
                 forall nm r, ~ In (delete_file nm r) evs) /\
    ((1 <= n)%nat ->
     clock w0 + (Z.of_nat n - 1) * polling_interval - start_time <= max_polling_time) /\
    clock w0 + Z.of_nat n * polling_interval <= clock w1.
Proof.
  intros Hi. induction n as [|n IH]; intros f0 w0 f w1; cbn [turns].
  - intros [= <- <-]. repeat split; try lia. exists []. repeat split. auto.
  - destruct (poll_step b polling_interval max_polling_time p start_time f0 w0)
      as [[[[x|f']|e] w']|] eqn:E; try discriminate.
    apply poll_step_turn in E. destruct E as (Hs & Ht & Hg & ->). intros T.
    destruct (IH _ _ _ _ T) as (Hd & (evs & Hn & Hp & Hdel) & Hc & Hk).
    cbn [turned clock disk net] in Hd, Hn, Hc, Hk.
    split; [exact Hd|]. split; [|split].
    + exists (evs ++ [get_file (name f0) (Ok f')])%list. rewrite Hn, <- app_assoc.
      split; [reflexivity|]. split.
      * unfold polls in *. rewrite filter_app, length_app, Hp. cbn. lia.
      * intros nm r Hin. apply in_app_or in Hin. destruct Hin as [Hin|[Hin|[]]].
        -- exact (Hdel _ _ Hin).
        -- discriminate.
    + intros _. destruct n as [|n]; [cbn; lia|]. lia.
    + lia.
Qed.

(** The loop gives up when, after some turns, it finds the file still
    PROCESSING and the wait beyond [max_polling_time]. *)
Lemma gives_up_after_turns b polling_interval max_polling_time fuel u w p f0 n f w1 :
  0 < polling_interval ->
  max_polling_time < Z.of_nat fuel * polling_interval ->
  on_tempfile b (disk w) (uf_name u) = Ok p ->
  on_write b p (getvalue u) = Ok tt ->
  snd (on_upload b (net w) p) = Ok f0 ->
  turns (poll_step b polling_interval max_polling_time p (clock (entered b u p f0 w)))
        n f0 (entered b u p f0 w) = Some (f, w1) ->
  state_name f = "PROCESSING" ->
  clock w1 + Z.of_N (pause b (net w1)) - clock (entered b u p f0 w) > max_polling_time ->
  upload_and_await b polling_interval max_polling_time fuel (Some u) w
  = Some (Ok None, given_up b max_polling_time p w1).
Proof.
  intros Hi Hf Ht Hw U0 T Hs Hc.
  destruct (turns_of_poll_step _ _ _ _ _ _ (Z.lt_le_incl _ _ Hi) _ _ _ _ T)
    as (Hd & _ & Hn & _).
  assert (Hfuel : (n <= fuel)%nat).
  { destruct n as [|n]; [lia|]. specialize (Hn ltac:(lia)). nia. }
  replace fuel with (n + (fuel - n))%nat by lia.
  rewrite (upload_and_await_staged _ _ _ _ _ _ p Ht Hw).
  match goal with |- ?m ?w0 = Some (?r, ?w1) =>
    enough (H : terminates m (fun r' w' => r' = r /\ w' = w1) w0)
  end.
  { apply terminates_run in H. destruct H as (r & w' & E & -> & ->). exact E. }
  apply terminates_catch. unfold staged_world, upload_and_poll, genai_upload_file.
  do 2 step. rewrite U0. do 3 step. unfold poll.
  eapply terminates_turns; [exact T|].
  eapply terminates_loop_exit.
  { apply poll_step_give_up; [exact Hs | exact Hc|].
    rewrite Hd. cbn [entered disk existsb]. now rewrite String.eqb_refl. }
  cbn [after_loop]. step. split; reflexivity.
Qed.

(** The run of the second part of C9, at the constants of the code: both
    tests of the loop are made within the wait. *)
Lemma two_polls_then_ready b fuel u w p f0 f1 f2 :
  (2 <= fuel)%nat ->
  on_tempfile b (disk w) (uf_name u) = Ok p ->
  on_write b p (getvalue u) = Ok tt ->
  processing_twice_then_ready b (net w) p f0 f1 f2 ->
  within_the_wait b (net w) p f0 f1 5 300 ->
  upload_and_await b 5 300 fuel (Some u) w
  = Some (Ok (Some f2),
          succeeded u p (turned b 5 f1 f2 (turned b 5 f0 f1 (entered b u p f0 w)))).
Proof.
  intros Hfuel Ht Hw (U0 & S0 & G1 & S1 & G2 & S2) (T0 & T1). cbn zeta in T0, T1.
  rewrite (upload_and_await_staged _ _ _ _ _ _ p Ht Hw).
  match goal with |- ?m ?w0 = Some (?r, ?w1) =>
    enough (H : terminates m (fun r' w' => r' = r /\ w' = w1) w0)
  end.
  { apply terminates_run in H. destruct H as (r & w' & E & -> & ->). exact E. }
  destruct fuel as [|[|fuel]]; try lia.
  apply terminates_catch. unfold staged_world, upload_and_poll, genai_upload_file.
  do 2 step. rewrite U0. do 3 step. unfold poll.
  eapply terminates_loop_turn.
  { apply poll_step_again; world; [assumption | lia | eassumption]. }
  eapply terminates_loop_turn.
  { apply poll_step_again; unfold turned; world; [assumption | lia | eassumption]. }
  eapply terminates_loop_exit.
  { apply poll_step_leave. rewrite S2. discriminate. }
  cbn [after_loop]. rewrite S2. cbn [String.eqb Ascii.eqb Bool.eqb].
  apply terminates_bind, terminates_unlink.
  { unfold turned; world. cbn [existsb]. now rewrite String.eqb_refl. }
  do 2 step. split; reflexivity.
Qed.

(** The run of the first part of C9: a poll answered with FAILED is the last
    request of the run. *)
Lemma failed_poll_ends_the_run b polling_interval max_polling_time fuel u w :
  0 < polling_interval ->
  max_polling_time < Z.of_nat fuel * polling_interval ->
  exists v w' evs,
    upload_and_await b polling_interval max_polling_time fuel (Some u) w
    = Some (Ok v, w') /\
    net w' = (evs ++ net w)%list /\
    forall later nm f earlier,
      evs = (later ++ get_file nm (Ok f) :: earlier)%list ->
      state_name f = "FAILED" ->
      later = [] /\ v = None /\ hd_error (ui w') = Some (Show Error msg_failed).
Proof.
  intros Hi Hf.
  destruct (upload_and_await_cases b _ _ fuel u w Hi Hf) as (r & w' & E & H).
  destruct H as [(e0 & _ & -> & Hn & _)|(p & _ & _ & x & evs & -> & Hn & Hp & Hl & Ha & Hu & _)].
  - exists None, w', []. repeat split; auto; now destruct later.
  - exists (result_of x), w', evs. split; [exact E|]. split; [exact Hn|].
    intros later nm f earlier -> Hs.
    destruct (polled_newest p _ (get_file nm (Ok f)) (Ok f) Hp) as [older Ho].
    { apply in_elt. }
    { reflexivity. }
    { intros f' [= <-]. rewrite Hs. discriminate. }
    assert (L : later = []).
    { destruct later as [|ev later]; [reflexivity|]. exfalso.
      pose proof (polled_older_processing _ _ Hp) as Hold. cbn [app tl] in Hold.
      rewrite Forall_forall in Hold.
      destruct (Hold (get_file nm (Ok f)) (in_elt _ _ _)) as (f' & [= <-] & Hs').
      rewrite Hs in Hs'. discriminate. }
    subst later. cbn [app last_report report_of] in Hl.
    destruct (exit_of_last_report x _ Hl Ha) as (_ & X & _).
    rewrite (X f eq_refl Hs) in *. auto.
Qed.

(** C9 (as amended).  A poll that the service answers with FAILED is the last
    request of the run, which returns [None] after the error box of the
    failure.  And when the service reports PROCESSING for the upload,
    PROCESSING at the first poll and ACTIVE at the second, the function, whose
    interval and wait are the constants 5 and 300, returns the ACTIVE file
    after these two polls if the first and the second test of the loop are
    made within 300 seconds of [start_time]; if not, it gives up with the
    time-out after one poll at most. *)
Theorem failed_poll_is_final_and_timely_second_poll_is_ready :
  (forall b u w,
     exists v w' evs,
       upload_video_to_gemini b (Some u) w = Some (Ok v, w') /\
       net w' = (evs ++ net w)%list /\
       forall later nm f earlier,
         evs = (later ++ get_file nm (Ok f) :: earlier)%list ->
         state_name f = "FAILED" ->
         later = [] /\ v = None /\ hd_error (ui w') = Some (Show Error msg_failed)) /\
  (forall b u w p f0 f1 f2,
     on_tempfile b (disk w) (uf_name u) = Ok p ->
     on_write b p (getvalue u) = Ok tt ->
     processing_twice_then_ready b (net w) p f0 f1 f2 ->
     exists v w' evs,
       upload_video_to_gemini b (Some u) w = Some (Ok v, w') /\
       net w' = (evs ++ net w)%list /\
       (within_the_wait b (net w) p f0 f1 5 300 ->
        v = Some f2 /\
        state_name f2 = "ACTIVE" /\
        evs = [get_file (name f1) (Ok f2); get_file (name f0) (Ok f1);
               upload_file p (Ok f0)] /\
        polls evs = 2%nat /\
        hd_error (ui w') = Some (Show Success (msg_ready (uf_name u)))) /\
       (~ within_the_wait b (net w) p f0 f1 5 300 ->
        v = None /\
        (polls evs <= 1)%nat /\
        hd_error (ui w') = Some (Show Error (msg_timed_out 300)))).
Proof.
  split.
  { intros b u w. unfold upload_video_to_gemini. apply failed_poll_ends_the_run; lia. }
  intros b u w p f0 f1 f2 Ht Hw Hs. pose proof Hs as (U0 & S0 & G1 & S1 & G2 & S2).
  unfold upload_video_to_gemini, within_the_wait. cbn zeta.
  destruct (Z_le_gt_dec (Z.of_N (pause b (upload_file p (Ok f0) :: net w))) 300)
    as [T0|T0].
  - destruct (Z_le_gt_dec
                (Z.of_N (pause b (upload_file p (Ok f0) :: net w)) + 5
                 + Z.of_N (fst (on_get b (upload_file p (Ok f0) :: net w) (name f0)))
                 + Z.of_N (pause b (get_file (name f0) (Ok f1)
                                      :: upload_file p (Ok f0) :: net w)))
                300) as [T1|T1].
    + rewrite (two_polls_then_ready b 61 u w p f0 f1 f2 ltac:(lia) Ht Hw Hs
                 (conj T0 T1)).
      exists (Some f2). eexists.
      exists [get_file (name f1) (Ok f2); get_file (name f0) (Ok f1);
              upload_file p (Ok f0)].
      split; [reflexivity|]. split; [reflexivity|].
      split; [intros _; repeat split; assumption|].
      intros N. exfalso. apply N. split; assumption.
    + rewrite (gives_up_after_turns b 5 300 61 u w p f0 1 f1
                 (turned b 5 f0 f1 (entered b u p f0 w))); auto; try lia.
      * exists None. eexists. exists [get_file (name f0) (Ok f1); upload_file p (Ok f0)].
        split; [reflexivity|]. split; [reflexivity|].
        split; [intros [_ T]; lia|].
        intros _. split; [reflexivity|]. split; [cbn; lia | reflexivity].
      * cbn [turns]. rewrite (poll_step_again _ _ _ _ _ f0 f1); auto.
        cbn [entered clock net]. lia.
      * cbn [turned entered clock net]. lia.
  - rewrite (gives_up_after_turns b 5 300 61 u w p f0 0 f0 (entered b u p f0 w));
      auto; try lia.
    + exists None. eexists. exists [upload_file p (Ok f0)].
      split; [reflexivity|]. split; [reflexivity|].
      split; [intros [T _]; lia|].
      intros _. split; [reflexivity|]. split; [cbn; lia | reflexivity].
    + cbn [entered clock net]. lia.
Qed.

(** The two scenarios, with a service that answers at once. *)
Lemma failed_poll_is_final_and_timely_second_poll_is_ready_witness :
  (exists w',
     upload_video_to_gemini
       (scripted (fun n => if (n <? 1)%nat then "PROCESSING" else "FAILED"))
       (Some clip) fresh
     = Some (Ok None, w') /\
     net w' = [get_file "files/abc123" (Ok (remote "FAILED"));
               upload_file tmp_path (Ok (remote "PROCESSING"))]) /\
  (exists w',
     upload_video_to_gemini
       (scripted (fun n => if (n <? 2)%nat then "PROCESSING" else "ACTIVE"))
       (Some clip) fresh
     = Some (Ok (Some (remote "ACTIVE")), w') /\
     polls (net w') = 2%nat).
Proof.
  destruct failed_poll_is_final_and_timely_second_poll_is_ready as [H1 H2]. split.
  - destruct (H1 (scripted (fun n => if (n <? 1)%nat then "PROCESSING" else "FAILED"))
                clip fresh) as (v & w' & evs & E & _ & _).
    exists w'. vm_compute in E. injection E as <- <-.
    split; vm_compute; reflexivity.
  - destruct (H2 (scripted (fun n => if (n <? 2)%nat then "PROCESSING" else "ACTIVE"))
                clip fresh tmp_path (remote "PROCESSING") (remote "PROCESSING")
                (remote "ACTIVE") eq_refl eq_refl)
      as (v & w' & evs & E & N & H & _).
    + repeat split.
    + destruct H as (-> & _ & -> & _).
      * split; cbn; lia.
      * exists w'. split; [exact E|]. rewrite N. reflexivity.
Defined.

(** C9 (as stated) fails in its second part: a service that reports
    PROCESSING for the upload and at the first poll, and ACTIVE at the second,
    but takes 300 seconds to answer a poll, is polled once; the second test
    of the loop, 305 seconds after [start_time], gives up.  The same holds
    with the interval 1 and the wait 10 of the claim in place of the
    constants of the code. *)
Lemma slow_second_report_times_out :
  processing_twice_then_ready sluggish [] tmp_path
    (remote "PROCESSING") (remote "PROCESSING") (remote "ACTIVE") /\
  (exists w',
     upload_video_to_gemini sluggish (Some clip) fresh = Some (Ok None, w') /\
     net w' = [get_file "files/abc123" (Ok (remote "PROCESSING"));
               upload_file tmp_path (Ok (remote "PROCESSING"))] /\
     hd_error (ui w') = Some (Show Error (msg_timed_out 300)) /\
     clock w' = 305) /\
  (exists w',
     upload_and_await sluggish 1 10 61 (Some clip) fresh = Some (Ok None, w') /\
     polls (net w') = 1%nat).
Proof.
  split; [repeat split|].
  split; eexists; (split; [vm_compute; reflexivity|]); repeat split.
Qed.

(** ** Time-outs *)








(** * Further properties of the code *)

(** ** The requests of an upload are bounded *)

(** One step through a computation, by the shape of its head. *)
Ltac go :=
  lazymatch goal with
  | |- terminates (bind _ _) _ _ => apply terminates_bind
  | |- terminates (catch _ _) _ _ => apply terminates_catch
  | |- terminates (ret _) _ _ => apply terminates_ret
  | |- terminates (st_info _) _ _ => apply terminates_show
  | |- terminates (st_error _) _ _ => apply terminates_show
  | |- terminates (st_success _) _ _ => apply terminates_show
  | |- terminates (st_sidebar_success _) _ _ => apply terminates_show
  | |- terminates (st_sidebar_warning _) _ _ => apply terminates_show
  | |- terminates st_rerun _ _ => apply terminates_rerun
  | |- terminates (time_time _) _ _ => apply terminates_time
  | |- terminates (time_sleep _) _ _ => apply terminates_sleep
  | |- terminates (os_path_exists _) _ _ => apply terminates_exists
  | |- terminates (request _ _) _ _ => apply terminates_request
  | |- terminates (genai_upload_file _ _) _ _ =>
      unfold genai_upload_file; apply terminates_request
  | |- terminates (genai_get_file _ _) _ _ =>
      unfold genai_get_file; apply terminates_request
  | |- terminates (genai_delete_file _ _) _ _ =>
      unfold genai_delete_file; apply terminates_request
  | |- terminates (model_generate_content _ _ _) _ _ =>
      unfold model_generate_content; apply terminates_request
  end;
  world.

Lemma terminates_unlink_cases p (Q : Reply unit -> World -> Prop) w :
  (existsb (String.eqb p) (disk w) = true ->
   Q (Ok tt) (mkWorld (clock w) (filter (fun q => negb (String.eqb p q)) (disk w))
                      (ui w) (net w))) ->
  (existsb (String.eqb p) (disk w) = false ->
   Q (Raise (mkExn "FileNotFoundError")) w) ->
  terminates (os_unlink p) Q w.
Proof.
  unfold terminates, os_unlink. destruct (existsb (String.eqb p) (disk w)); auto.
Qed.

(** The handler requests nothing. *)
Lemma on_exception_keeps_net tmp e (P : list Event -> Prop) w :
  P (net w) ->
  terminates (on_exception tmp e) (fun _ w' => P (net w')) w.
Proof.
  intros H. unfold on_exception. do 3 go. destruct tmp as [p|].
  - do 2 go. destruct (existsb (String.eqb p) (disk w)) eqn:E.
    + apply terminates_unlink; world; [exact E|]. go. exact H.
    + do 2 go. exact H.
  - do 2 go. exact H.
Qed.

(** Nor does what follows the loop. *)
Lemma after_loop_keeps_net u p x (P : list Event -> Prop) w :
  P (net w) ->
  terminates (after_loop u p x)
    (fun r w' =>
       match r with
       | Ok _ => P (net w')
       | Raise e => terminates (on_exception (Some p) e) (fun _ w'' => P (net w'')) w'
       end) w.
Proof.
  intros H. destruct x as [|f]; cbn [after_loop]; [go; exact H|].
  destruct (state_name f =? "FAILED")%string.
  - do 3 go. apply terminates_unlink_cases; world; intros _.
    + go. exact H.
    + now apply on_exception_keeps_net.
  - go. apply terminates_unlink_cases; world; intros _.
    + do 3 go. exact H.
    + now apply on_exception_keeps_net.
Qed.

Section Bounded.

Variable b : Backend.
Variables polling_interval max_polling_time : Z.
Hypothesis interval_positive : 0 < polling_interval.

Variables (u : UploadedFile) (p : string) (w0 : World).




End Bounded.



(** The requests of a run come on top of those made before. *)
Section Extends.

Variable b : Backend.
Variables polling_interval max_polling_time : Z.
Hypothesis interval_positive : 0 < polling_interval.

Variables (u : UploadedFile) (p : string).

Lemma poll_step_extends (base : list Event) start f w :
  (exists older, net w = (older ++ base)%list) ->
  terminates (poll_step b polling_interval max_polling_time p start f)
    (fun r w' =>
       match r with
       | Ok (inl _) => exists older, net w' = (older ++ base)%list
       | Ok (inr _) =>
           (exists older, net w' = (older ++ base)%list) /\
           0 <= max_polling_time - (clock w - start) /\
           max_polling_time - (clock w' - start)
             <= max_polling_time - (clock w - start) - polling_interval
       | Raise e => exists older, net w' = (older ++ base)%list
       end) w.
Proof.
  intros (older & Hn). unfold poll_step.
  destruct (String.eqb_spec (state_name f) "PROCESSING") as [E|E].
  - do 2 go.
    destruct (Z.gtb_spec (clock w + Z.of_N (pause b (net w)) - start) max_polling_time) as [G|G].
    + do 3 go. apply terminates_unlink_cases; world; intros _.
      * go. now exists older.
      * now exists older.
    + do 4 go.
      destruct (on_get b (net w) (name f)) as [lat [f'|e]]; world.
      * do 3 go. rewrite Z2N.id by lia. split; [|lia].
        exists (get_file (name f) (Ok f') :: older). now rewrite Hn.
      * exists (get_file (name f) (Raise e) :: older). now rewrite Hn.
  - go. now exists older.
Qed.

(** Past the staging, the first request is the upload of the temporary
    file. *)
Lemma upload_and_poll_starts_with_the_upload fuel w0 :
  max_polling_time < Z.of_nat fuel * polling_interval ->
  terminates
    (catch (upload_and_poll b polling_interval max_polling_time fuel u p)
           (on_exception (Some p)))
    (fun _ w' =>
       exists older,
         net w' = (older ++ upload_file p (snd (on_upload b (net w0) p)) :: net w0)%list)
    w0.
Proof.
  intros Hfuel. go. unfold upload_and_poll. do 2 go.
  destruct (on_upload b (net w0) p) as [lat [vf|e]]; world.
  - do 5 go. unfold poll.
    match goal with |- terminates _ _ ?w1 =>
      apply terminates_loop with
        (I := fun (_ : File) w =>
                exists older, net w = (older ++ upload_file p (Ok vf) :: net w0)%list)
        (pot := fun (_ : File) w => max_polling_time - (clock w - clock w1))
        (d := polling_interval)
    end; world.
    + intros f w Hf. eapply terminates_weaken; [apply poll_step_extends, Hf|].
      intros [[x|f']|e] w'; cbn beta iota; auto.
      * intros H.
        now apply (after_loop_keeps_net u p x
                     (fun h => exists older,
                          h = (older ++ upload_file p (Ok vf) :: net w0)%list)).
      * intros H.
        now apply (on_exception_keeps_net (Some p) e
                     (fun h => exists older,
                          h = (older ++ upload_file p (Ok vf) :: net w0)%list)).
    + now exists [].
    + lia.
  - apply (on_exception_keeps_net (Some p) e
             (fun h => exists older,
                  h = (older ++ upload_file p (Raise e) :: net w0)%list)).
    world. now exists [].
Qed.

End Extends.

Lemma upload_is_requested_first b u w p :
  on_tempfile b (disk w) (uf_name u) = Ok p ->
  on_write b p (getvalue u) = Ok tt ->
  exists v w' older,
    upload_video_to_gemini b (Some u) w = Some (Ok v, w') /\
    net w' = (older ++ upload_file p (snd (on_upload b (net w) p)) :: net w)%list.
Proof.
  intros Ht Hw. unfold upload_video_to_gemini.
  destruct (upload_and_await_exits b 5 300 61 u w p) as (r & w' & E & x & evs & -> & _);
    try lia; auto.
  pose proof E as E'. rewrite (upload_and_await_staged _ _ _ _ _ _ p Ht Hw) in E'.
  pose proof (upload_and_poll_starts_with_the_upload b 5 300 ltac:(lia) u p 61%nat
                (staged_world u p w) ltac:(lia)) as B.
  unfold terminates in B. rewrite E' in B. destruct B as (older & Hn).
  exists (result_of x), w', older. split; [exact E | exact Hn].
Qed.

(** The requests of a run past the staging: the upload first, with the
    answer of the service. *)
Lemma staged_run_requests b u w p v w' evs :
  on_tempfile b (disk w) (uf_name u) = Ok p ->
  on_write b p (getvalue u) = Ok tt ->
  upload_video_to_gemini b (Some u) w = Some (Ok v, w') ->
  net w' = (evs ++ net w)%list ->
  exists older, evs = (older ++ [upload_file p (snd (on_upload b (net w) p))])%list.
Proof.
  intros Ht Hw E Hn.
  destruct (upload_is_requested_first b u w p Ht Hw) as (v2 & w2 & older & E2 & Hn2).
  rewrite E in E2. injection E2 as <- <-. exists older.
  rewrite Hn in Hn2. change (upload_file p (snd (on_upload b (net w) p)) :: net w)
    with ([upload_file p (snd (on_upload b (net w) p))] ++ net w)%list in Hn2.
  rewrite app_assoc in Hn2. now apply app_inv_tail in Hn2.
Qed.



(** X2.  [upload_video_to_gemini] leaves every file of the disk as it was,
    but for the temporary file that it made itself, which is gone when the
    function returns if the copy could be staged. *)
Theorem upload_touches_its_own_file_only b u w :
  exists v w',
    upload_video_to_gemini b (Some u) w = Some (Ok v, w') /\
    (forall q, on_tempfile b (disk w) (uf_name u) <> Ok q ->
               (In q (disk w') <-> In q (disk w))) /\
    (forall p, on_tempfile b (disk w) (uf_name u) = Ok p ->
               on_write b p (getvalue u) = Ok tt ->
               ~ In p (disk w')).
Proof.
  destruct (on_tempfile b (disk w) (uf_name u)) as [p|e] eqn:Ht.
  - assert (Hq : forall q, Ok p <> @Ok string q -> p <> q) by (intros q H ->; now apply H).
    destruct (on_write b p (getvalue u)) as [[]|e] eqn:Hw.
    + unfold upload_video_to_gemini.
      destruct (upload_and_await_exits b 5 300 61 u w p) as (r & w' & E & H); try lia; auto.
      destruct H as (x & evs & -> & _ & _ & _ & _ & _ & Hd).
      exists (result_of x), w'. split; [exact E|]. split.
      * intros q Hne. apply Hq in Hne.
        rewrite Hd. cbn [staged_world disk filter]. rewrite String.eqb_refl. cbn [negb].
        rewrite filter_In. split; [tauto|]. intros H. split; [exact H|].
        destruct (String.eqb_spec p q); [contradiction | reflexivity].
      * intros p' [= <-] _. rewrite Hd. apply unlinked.
    + unfold upload_video_to_gemini.
      rewrite (upload_and_await_write_failed _ _ _ _ _ _ p e Ht Hw).
      do 2 eexists. split; [reflexivity|]. split.
      * intros q Hne. apply Hq in Hne. cbn. tauto.
      * intros p' [= <-] Hw'. rewrite Hw in Hw'. discriminate.
  - unfold upload_video_to_gemini.
    rewrite (upload_and_await_no_tempfile _ _ _ _ _ _ e Ht).
    do 2 eexists. split; [reflexivity|]. split; [intros q _; reflexivity | discriminate].
Qed.

(** A run on a disk that holds another file. *)
Lemma upload_touches_its_own_file_only_witness :
  exists v w',
    upload_video_to_gemini (scripted (fun _ => "ACTIVE")) (Some clip)
      (mkWorld 0 ["/tmp/other.mp4"] [] [])
    = Some (Ok v, w') /\
    In "/tmp/other.mp4" (disk w') /\
    ~ In tmp_path (disk w').
Proof.
  destruct (upload_touches_its_own_file_only (scripted (fun _ => "ACTIVE")) clip
              (mkWorld 0 ["/tmp/other.mp4"] [] [])) as (v & w' & E & H1 & H2).
  exists v, w'. split; [exact E|]. split.
  - apply (H1 "/tmp/other.mp4"); [discriminate | now left].
  - exact (H2 tmp_path eq_refl eq_refl).
Defined.

(** X3.  [upload_video_to_gemini] never asks again after an answer that ends
    the wait: a request answered by an exception, or by a report of any
    state but PROCESSING, is the last request of the run.  (When the
    temporary copy could be staged, there is such a run: its first request is
    the upload of that copy.) *)
Theorem upload_never_retries b u w :
  exists v w' evs,
    upload_video_to_gemini b (Some u) w = Some (Ok v, w') /\
    net w' = (evs ++ net w)%list /\
    (forall ev rep,
       In ev evs ->
       report_of ev = Some rep ->
       (forall f, rep = Ok f -> state_name f <> "PROCESSING") ->
       exists older, evs = ev :: older) /\
    (forall p,
       on_tempfile b (disk w) (uf_name u) = Ok p ->
       on_write b p (getvalue u) = Ok tt ->
       exists older, evs = (older ++ [upload_file p (snd (on_upload b (net w) p))])%list).
Proof.
  unfold upload_video_to_gemini.
  destruct (upload_and_await_cases b 5 300 61 u w) as (r & w' & E & H); try lia.
  destruct H as [(e0 & Hs & -> & Hn & _)|(p & Ht & Hw & x & evs & -> & Hn & Hp & _)].
  - exists None, w', []. split; [exact E|]. split; [exact Hn|].
    split; [intros ev rep []|].
    intros p Ht Hw. destruct Hs as [Hs|(p' & Hs1 & Hs2)]; congruence.
  - exists (result_of x), w', evs. split; [exact E|]. split; [exact Hn|]. split.
    + intros ev rep Hin Hr Hs. exact (polled_newest p evs ev rep Hp Hin Hr Hs).
    + intros p' Ht' Hw'. assert (p' = p) as -> by congruence.
      now apply (staged_run_requests b u w p (result_of x) w').
Qed.

(** The service fails the processing at the first poll: nothing is asked
    after that. *)
Lemma upload_never_retries_witness :
  exists v w',
    upload_video_to_gemini
      (scripted (fun n => if (n <? 1)%nat then "PROCESSING" else "FAILED"))
      (Some clip) fresh
    = Some (Ok v, w') /\
    exists older, net w' = get_file "files/abc123" (Ok (remote "FAILED")) :: older.
Proof.
  destruct (upload_never_retries
              (scripted (fun n => if (n <? 1)%nat then "PROCESSING" else "FAILED"))
              clip fresh) as (v & w' & evs & E & Hn & H & _).
  assert (Hevs : evs = [get_file "files/abc123" (Ok (remote "FAILED"));
                        upload_file tmp_path (Ok (remote "PROCESSING"))]).
  { pose proof E as E0. vm_compute in E0. injection E0 as _ <-.
    cbn [fresh net] in Hn. rewrite app_nil_r in Hn. now symmetry. }
  destruct (H (get_file "files/abc123" (Ok (remote "FAILED"))) (Ok (remote "FAILED")))
    as (older & Ho).
  - rewrite Hevs. now left.
  - reflexivity.
  - intros f [= <-]. discriminate.
  - exists v, w'. split; [exact E|]. exists older. rewrite Hn, Ho. cbn [fresh net].
    now rewrite app_nil_r.
Defined.

(** ** Runs of the script *)

Lemma polled_reports p evs ev : polled p evs -> In ev evs -> report_of ev <> None.
Proof.
  induction 1 as [r|f r evs H IH Hl Hs]; intros [<-|Hin]; try discriminate; auto.
Qed.

(** What an upload returns and requests. *)
Lemma upload_run b u w :
  exists v w' evs,
    upload_video_to_gemini b (Some u) w = Some (Ok v, w') /\
    net w' = (evs ++ net w)%list /\
    settled v /\
    (forall ev, In ev evs -> report_of ev <> None) /\
    (forall f, v = Some f -> reported evs f).
Proof.
  unfold upload_video_to_gemini.
  destruct (upload_and_await_cases b 5 300 61 u w) as (r & w' & E & H); try lia.
  destruct H as [(e0 & _ & -> & Hn & _)|(p & _ & _ & x & evs & -> & Hn & Hp & Hl & Ha & _)].
  - exists None, w', []. repeat split; auto; try discriminate.
  - exists (result_of x), w', evs. split; [exact E|]. split; [exact Hn|].
    split; [|split; [intros ev; apply (polled_reports p evs ev Hp)|]].
    + intros f Hf. destruct x; try discriminate. injection Hf as <-. exact Ha.
    + intros f Hf. destruct x; try discriminate. injection Hf as <-. cbn in Hl.
      destruct evs as [|ev evs]; [discriminate|]. exists ev. split; [now left | exact Hl].
Qed.

(** What a question returns and requests. *)
Lemma query_run b system_prompt f user_prompt w :
  exists r w',
    get_gemini_response b system_prompt (Some f) user_prompt w = Some (Ok r, w') /\
    net w' = generate_content (asked system_prompt f user_prompt) 600
               (snd (on_generate b (net w) (asked system_prompt f user_prompt) 600))
             :: net w.
Proof.
  rewrite get_gemini_response_cases. cbn zeta.
  destruct (snd (on_generate b (net w) (asked system_prompt f user_prompt) 600))
    as [[[|c cs] [t|e]]|e]; cbn [candidates text]; eauto.
Qed.

(** The requests of a press of the button: none, the question for the state,
    or this question and the deletion, by the name of the stored handle. *)
Lemma clear_run b s w :
  exists w' evs,
    clear_chat_and_remove_video b s w
    = Some (Ok (mkSession [] None None (upload_key s + 1)), w') /\
    net w' = (evs ++ net w)%list /\
    (evs = [] \/
     exists obj, uploaded_video_file_obj s = Some obj /\
       ((exists r, evs = [get_file (name obj) r]) \/
        (exists r r', evs = [delete_file (name obj) r'; get_file (name obj) r]))).
Proof.
  run_release. destruct (uploaded_video_file_obj s) as [obj|];
    [|eexists; exists []; repeat split; now left].
  destruct (on_get b (net w) (name obj)) as [lat [f|e]]; cbn [fst snd];
    [|eexists; eexists [_]; repeat split; right; exists obj; split; eauto].
  destruct (state_name f =? "ACTIVE")%string; cbn [clock disk ui net];
    [|eexists; eexists [_]; repeat split; right; exists obj; split; eauto].
  destruct (on_delete b _ (name obj)) as [lat' [[]|e]]; cbn [fst snd];
    eexists; eexists [_; _]; repeat split; right; exists obj; split; eauto.
Qed.

(** Rules for the helpers, as the script calls them. *)
Lemma terminates_query b system_prompt f user_prompt (Q : Reply string -> World -> Prop) w :
  (forall r w',
     net w' = generate_content (asked system_prompt f user_prompt) 600
                (snd (on_generate b (net w) (asked system_prompt f user_prompt) 600))
              :: net w ->
     Q (Ok r) w') ->
  terminates (get_gemini_response b system_prompt (Some f) user_prompt) Q w.
Proof.
  intros H. destruct (query_run b system_prompt f user_prompt w) as (r & w' & E & Hn).
  unfold terminates. rewrite E. auto.
Qed.

Lemma terminates_clear b s (Q : Reply Session -> World -> Prop) w :
  (forall w' evs,
     net w' = (evs ++ net w)%list ->
     (evs = [] \/
      exists obj, uploaded_video_file_obj s = Some obj /\
        ((exists r, evs = [get_file (name obj) r]) \/
         (exists r r', evs = [delete_file (name obj) r'; get_file (name obj) r]))) ->
     Q (Ok (mkSession [] None None (upload_key s + 1))) w') ->
  terminates (clear_chat_and_remove_video b s) Q w.
Proof.
  intros H. destruct (clear_run b s w) as (w' & evs & E & Hn & Hf).
  unfold terminates. rewrite E. eauto.
Qed.

(** The call through the cache: a kept result and no request, or a run of
    the function, whose result is kept. *)
Lemma terminates_upload_cached b c u (Q : Reply (option File * Cache) -> World -> Prop) w :
  (forall v shown w',
     cached c u = Some (v, shown) -> net w' = net w -> Q (Ok (v, c)) w') ->
  (forall v shown w' evs,
     cached c u = None ->
     net w' = (evs ++ net w)%list ->
     settled v ->
     (forall ev, In ev evs -> report_of ev <> None) ->
     (forall f, v = Some f -> reported evs f) ->
     Q (Ok (v, (u, (v, shown)) :: c)) w') ->
  terminates (upload_video_to_gemini_cached b c u) Q w.
Proof.
  intros Hit Miss. unfold upload_video_to_gemini_cached.
  destruct (cached c u) as [[v shown]|] eqn:Hc.
  - go. unfold terminates at 1, replay. go. now apply (Hit v shown).
  - destruct (upload_run b u w) as (v & w' & evs & E & Hn & Hs & He & Hr).
    go. unfold terminates at 1, page_so_far. go.
    unfold terminates at 1. rewrite E. go.
    unfold terminates at 1, page_so_far. go. eauto.
Qed.

Lemma cached_In c u kept : cached c u = Some kept -> exists u', In (u', kept) c.
Proof.
  induction c as [|[u' kept'] c IH]; cbn [cached]; [discriminate|].
  destruct (same_file u u').
  - intros [= ->]. exists u'. now left.
  - intros H. destruct (IH H) as (u'' & Hin). exists u''. now right.
Qed.

Lemma same_file_refl u : same_file u u = true.
Proof.
  unfold same_file. rewrite String.eqb_refl.
  now destruct (list_eq_dec Byte.byte_eq_dec (getvalue u) (getvalue u)).
Qed.

Lemma alternates_turn q a ms user_next :
  alternates user_next ms = true ->
  alternates user_next (ms ++ [("user", q); ("assistant", a)]) = true.
Proof.
  revert user_next. induction ms as [|[role c] ms IH]; intros user_next; cbn [alternates app].
  - now intros ->.
  - intros H. apply andb_true_iff in H. destruct H as [H1 H2].
    now rewrite H1, (IH _ H2).
Qed.

Lemma settled_none : settled None.
Proof. intros f; discriminate. Qed.

Lemma initialise_stored s : initialise (stored s) = s.
Proof. now destruct s. Qed.

Section Sane.

Variable b : Backend.
Variable system_prompt : string.
Variable base : list Event.

Lemma sane_same_net c s w w' : sane base c s w -> net w' = net w -> sane base c s w'.
Proof. intros (Hs & Hc & H) Hn. unfold sane. now rewrite Hn. Qed.

Lemma upload_section_sane c uploaded_file s w :
  sane base c s w ->
  terminates (upload_section b c uploaded_file s)
    (fun res w' => exists fl page c',
         res = Ok (fl, page, c') /\ sane base c' (session_of fl) w') w.
Proof.
  intros H. pose proof H as (Hs & Hc & evs & Hn & Hf). unfold upload_section.
  destruct uploaded_file as [u|].
  - destruct (same_name (uploaded_file_name s) u); cbn [negb].
    + destruct (uploaded_video_file_obj s) eqn:Ho.
      * do 3 go. do 3 eexists. split; [reflexivity|]. now apply (sane_same_net c s w).
      * do 3 go. do 3 eexists. split; [reflexivity|].
        split; [apply settled_none|]. split; [exact Hc | eauto].
    + go. apply terminates_upload_cached.
      * intros v shown w1 Hv Hnet. do 3 go. do 3 eexists. split; [reflexivity|].
        cbn [fst snd session_of]. split; [|split; [exact Hc|]].
        -- destruct (cached_In _ _ _ Hv) as (u' & Hin). exact (Hc _ _ _ Hin).
        -- exists evs. now rewrite Hnet.
      * intros v shown w1 new _ Hnet Hv Hev _. do 3 go. do 3 eexists.
        split; [reflexivity|]. cbn [fst snd session_of]. split; [|split].
        -- exact Hv.
        -- intros u' v' shown' [[= <- <- <-]|Hin]; [exact Hv | exact (Hc _ _ _ Hin)].
        -- exists (new ++ evs)%list. rewrite Hnet, Hn, app_assoc. split; [reflexivity|].
           apply Forall_app. split; [|exact Hf].
           apply Forall_forall. intros ev Hin. specialize (Hev ev Hin). now destruct ev.
  - destruct (uploaded_video_file_obj s) eqn:Ho.
    + do 5 go. do 3 eexists. split; [reflexivity|]. now apply (sane_same_net c s w).
    + go. do 3 eexists. split; [reflexivity|]. exact H.
Qed.

Lemma chat_sane c prompt s w :
  sane base c s w ->
  terminates (chat b system_prompt prompt s)
    (fun res w' => exists s' page, res = Ok (s', page) /\ sane base c s' w') w.
Proof.
  intros H. pose proof H as (H1 & Hc & evs & Hn & Hf). unfold chat.
  destruct prompt as [[|ch q]|]; try (go; eauto).
  destruct (uploaded_video_file_obj s) as [f|] eqn:Ho; [|go; eauto].
  go. apply terminates_query. intros r w' Hnet. go. do 2 eexists. split; [reflexivity|].
  split; [|split; [exact Hc|]].
  - cbn [uploaded_video_file_obj]. intros f0 [= <-]. now apply H1.
  - eexists (_ :: evs). rewrite Hnet, Hn. split; [reflexivity|].
    constructor; [|exact Hf]. cbn. intros f' [F|[F|[F|[]]]]; try discriminate.
    injection F as <-. now apply H1.
Qed.

Lemma clear_sane c s w :
  sane base c s w ->
  terminates (clear_chat_and_remove_video b s)
    (fun res w' => exists s', res = Ok s' /\ sane base c s' w') w.
Proof.
  intros (Hs & Hc & evs & Hn & Hf). apply terminates_clear. intros w' new Hnet Hshape.
  eexists. split; [reflexivity|]. split; [apply settled_none|]. split; [exact Hc|].
  exists (new ++ evs)%list. rewrite Hnet, Hn, app_assoc. split; [reflexivity|].
  apply Forall_app. split; [|exact Hf].
  destruct Hshape as [->|(obj & _ & [(r & ->)|(r & r' & ->)])]; repeat constructor.
Qed.

Lemma script_sane c i s w :
  sane base c s w ->
  terminates (script b system_prompt c i s)
    (fun res w' => exists s' page c',
         res = Ok (s', page, c') /\ sane base c' s' w') w.
Proof.
  intros H. unfold script. go.
  eapply terminates_weaken; [apply upload_section_sane, H|]. cbn beta.
  intros res w1 (fl & page & c1 & -> & H1). destruct fl as [s1|s1]; cbn [session_of] in H1.
  - go. eapply terminates_weaken; [apply (chat_sane c1), H1|]. cbn beta.
    intros res w2 (s2 & page2 & -> & H2). cbn [fst snd]. destruct (clear_button i).
    + go. eapply terminates_weaken; [apply (clear_sane c1), H2|]. cbn beta.
      intros res w3 (s3 & -> & H3). go. eauto.
    + go. eauto.
  - go. eauto.
Qed.

Lemma play_sane visit d c w :
  sane base c (initialise d) w ->
  terminates (play b system_prompt visit (d, c))
    (fun res w' => exists d' c',
         res = Ok (d', c') /\ sane base c' (initialise d') w') w.
Proof.
  revert d c w. induction visit as [|i visit IH]; intros d c w H; cbn [play].
  - go. eauto.
  - go. unfold run. cbn [fst snd]. go.
    eapply terminates_weaken; [apply script_sane, H|]. cbn beta.
    intros res w1 (s1 & page & c1 & -> & H1). go. cbn [fst snd]. apply IH.
    now rewrite initialise_stored.
Qed.

End Sane.

(** X4.  Whatever happens in a visit, the script raises nothing, and each of
    its generation requests is about a file whose recorded state is neither
    PROCESSING nor FAILED; so is the handle that it keeps, provided that the
    handles found in the cache are so. *)
Theorem visit_asks_about_settled_files b system_prompt visit c w :
  cache_settled c ->
  exists d' c' w' evs,
    play b system_prompt visit (empty_state, c) w = Some (Ok (d', c'), w') /\
    net w' = (evs ++ net w)%list /\
    Forall about_settled evs /\
    settled (uploaded_video_file_obj (initialise d')).
Proof.
  intros Hc.
  assert (H : sane (net w) c (initialise empty_state) w).
  { split; [apply settled_none|]. split; [exact Hc|]. exists []. now split. }
  apply (play_sane b system_prompt (net w) visit) in H.
  apply terminates_run in H.
  destruct H as (res & w' & E & d' & c' & -> & Hs & _ & evs & Hn & Hf).
  exists d', c', w', evs. auto.
Qed.

(** A visit: a video is uploaded, a question is asked about it. *)
Lemma visit_asks_about_settled_files_witness :
  exists d' c' w',
    play (scripted (fun _ => "ACTIVE")) "You are a fitness trainer."
      [mkInputs (Some clip) None false;
       mkInputs None (Some "Is my squat deep enough?") false]
      (empty_state, []) fresh
    = Some (Ok (d', c'), w') /\
    net w' = [generate_content
                (asked "You are a fitness trainer." (remote "ACTIVE")
                       "Is my squat deep enough?") 600 (Ok answer);
              upload_file tmp_path (Ok (remote "ACTIVE"))].
Proof.
  destruct (visit_asks_about_settled_files (scripted (fun _ => "ACTIVE"))
              "You are a fitness trainer."
              [mkInputs (Some clip) None false;
               mkInputs None (Some "Is my squat deep enough?") false] [] fresh)
    as (d' & c' & w' & evs & E & _).
  - intros u v shown [].
  - exists d', c', w'. split; [exact E|]. vm_compute in E. now injection E as _ _ <-.
Defined.

(** X5.  When the model answers with a candidate and its text can be read,
    [get_gemini_response] returns that text as it is, shows no error, and has
    made this one request. *)
Theorem model_text_is_returned_verbatim b system_prompt f user_prompt w response t :
  snd (on_generate b (net w) (asked system_prompt f user_prompt) 600) = Ok response ->
  candidates response <> [] ->
  text response = Ok t ->
  exists w',
    get_gemini_response b system_prompt (Some f) user_prompt w = Some (Ok t, w') /\
    ui w' = Show Info msg_thinking :: ui w /\
    net w' = generate_content (asked system_prompt f user_prompt) 600 (Ok response)
             :: net w /\
    disk w' = disk w.
Proof.
  intros Hg Hc Ht. rewrite get_gemini_response_cases. cbn zeta. rewrite Hg.
  destruct (candidates response); [contradiction|]. rewrite Ht.
  eexists. repeat split.
Qed.

(** The model answers a question about an ACTIVE file. *)
Lemma model_text_is_returned_verbatim_witness :
  exists w',
    get_gemini_response (scripted (fun _ => "ACTIVE")) "You are a fitness trainer."
      (Some (remote "ACTIVE")) "Is my squat deep enough?" fresh
    = Some (Ok "Keep your back straight.", w') /\
    ui w' = [Show Info msg_thinking].
Proof.
  destruct (model_text_is_returned_verbatim (scripted (fun _ => "ACTIVE"))
              "You are a fitness trainer." (remote "ACTIVE") "Is my squat deep enough?"
              fresh answer "Keep your back straight." eq_refl ltac:(discriminate) eq_refl)
    as (w' & E & Hu & _).
  exists w'. split; [exact E | exact Hu].
Defined.



(** A run in which the button is pressed and nothing else is done. *)
Lemma button_run b system_prompt c s w :
  exists page w',
    script b system_prompt c (mkInputs None None true) s w
    = Some (Ok (mkSession [] None None (upload_key s + 1), page, c), w').
Proof.
  assert (H : terminates (script b system_prompt c (mkInputs None None true) s)
                (fun res _ => exists page,
                     res = Ok (mkSession [] None None (upload_key s + 1), page, c)) w).
  { unfold script. go. unfold upload_section. cbn [uploader chat_input clear_button].
    destruct (uploaded_video_file_obj s).
    - do 6 go. unfold chat. do 2 go. apply terminates_clear. intros w' evs _ _. go. eauto.
    - do 2 go. unfold chat. do 2 go. apply terminates_clear. intros w' evs _ _. go. eauto. }
  apply terminates_run in H. destruct H as (res & w1 & E & page1 & ->). eauto.
Qed.



(** ** What the cache keeps *)

Section Stuck.

Variable b : Backend.
Variable system_prompt : string.
Variable u : UploadedFile.

Lemma script_stuck c i s w :
  stuck u c s ->
  offers_only u i ->
  terminates (script b system_prompt c i s)
    (fun res w' => exists s' page,
         res = Ok (s', page, c) /\ stuck u c s' /\ net w' = net w) w.
Proof.
  intros ((shown & Hc) & Ho) Hi.
  assert (Rest : forall s1 page1 w1,
             uploaded_video_file_obj s1 = None -> net w1 = net w ->
             terminates
               (y <- chat b system_prompt (chat_input i) s1 ;;
                if clear_button i
                then s3 <- clear_chat_and_remove_video b (fst y) ;;
                     ret (s3, (snd y ++ transcript (messages s1)
                                 ++ Header "Chat about the Video" :: page1)%list, c)
                else ret (fst y, (snd y ++ transcript (messages s1)
                                    ++ Header "Chat about the Video" :: page1)%list, c))
               (fun res w' => exists s' page,
                    res = Ok (s', page, c) /\ stuck u c s' /\ net w' = net w) w1).
  { intros s1 page1 w1 Ho1 Hn1. go. unfold chat.
    assert (Then : forall page,
               terminates
                 (if clear_button i
                  then s3 <- clear_chat_and_remove_video b s1 ;;
                       ret (s3, (page ++ transcript (messages s1)
                                   ++ Header "Chat about the Video" :: page1)%list, c)
                  else ret (s1, (page ++ transcript (messages s1)
                                   ++ Header "Chat about the Video" :: page1)%list, c))
                 (fun res w' => exists s' page,
                      res = Ok (s', page, c) /\ stuck u c s' /\ net w' = net w) w1).
    { intros page. destruct (clear_button i).
      - go. apply terminates_clear. intros w' evs Hnet Hshape. go.
        do 2 eexists. split; [reflexivity|]. split; [split; [eauto | reflexivity]|].
        destruct Hshape as [->|(obj & F & _)]; [now rewrite Hnet | congruence].
      - go. do 2 eexists. split; [reflexivity|]. split; [split; [eauto | exact Ho1]|].
        exact Hn1. }
    destruct (chat_input i) as [[|ch q]|]; [go; apply Then | | go; apply Then].
    rewrite Ho1. go. apply Then. }
  unfold script. go. unfold upload_section. destruct Hi as [->| ->].
  - rewrite Ho. go. now apply Rest.
  - destruct (same_name (uploaded_file_name s) u); cbn [negb].
    + rewrite Ho. do 3 go. now apply Rest.
    + go. unfold upload_video_to_gemini_cached. rewrite Hc. go.
      unfold terminates at 1, replay. do 5 go.
      do 2 eexists. split; [reflexivity|]. split; [split; [eauto | reflexivity]|].
      reflexivity.
Qed.

Lemma play_stuck visit c d w :
  stuck u c (initialise d) ->
  Forall (offers_only u) visit ->
  terminates (play b system_prompt visit (d, c))
    (fun res w' => exists d',
         res = Ok (d', c) /\ stuck u c (initialise d') /\ net w' = net w) w.
Proof.
  intros H Hv. revert d w H. induction Hv as [|i visit Hi Hv IH]; intros d w H; cbn [play].
  - go. eauto.
  - go. unfold run. cbn [fst snd]. go.
    eapply terminates_weaken; [apply script_stuck; [exact H | exact Hi]|]. cbn beta.
    intros res w1 (s1 & page & -> & H1 & Hn1). go. cbn [fst snd].
    eapply terminates_weaken; [apply IH; now rewrite initialise_stored|]. cbn beta.
    intros res w2 (d2 & -> & H2 & Hn2). exists d2. split; [reflexivity|].
    split; [exact H2 | congruence].
Qed.

(** The run that takes [u] for a new file, when the cache does not know it. *)
Lemma first_offer c s w q clear v w0 :
  same_name (uploaded_file_name s) u = false ->
  cached c u = None ->
  upload_video_to_gemini b (Some u) w = Some (Ok v, w0) ->
  exists page shown w1,
    script b system_prompt c (mkInputs (Some u) q clear) s w
    = Some (Ok (mkSession [] v (Some (uf_name u)) (upload_key s + 1), page,
                (u, (v, shown)) :: c), w1) /\
    net w1 = net w0.
Proof.
  intros Hn Hc E. unfold script, upload_section. cbn [uploader chat_input clear_button].
  rewrite Hn. cbn [negb]. unfold upload_video_to_gemini_cached. rewrite Hc.
  unfold bind, page_so_far. rewrite E. cbn.
  do 3 eexists. split; reflexivity.
Qed.

(** The run that takes [u] for a new file, when the cache knows it. *)
Lemma later_offer c s w q clear v shown :
  same_name (uploaded_file_name s) u = false ->
  cached c u = Some (v, shown) ->
  exists page w',
    script b system_prompt c (mkInputs (Some u) q clear) s w
    = Some (Ok (mkSession [] v (Some (uf_name u)) (upload_key s + 1), page, c), w') /\
    net w' = net w /\ disk w' = disk w.
Proof.
  intros Hn Hc. unfold script, upload_section. cbn [uploader chat_input clear_button].
  rewrite Hn. cbn [negb]. unfold upload_video_to_gemini_cached. rewrite Hc.
  cbn. do 2 eexists. split; [reflexivity|]. split; reflexivity.
Qed.

End Stuck.

(** X7.  A run whose uploader holds a file of another name than the recorded
    one takes it for a new file and stops at [st.rerun()]: the chat is
    emptied, the handle that the call of [upload_video_to_gemini] gives (or
    [None]) replaces the stored one, and the requests of the run are those of
    that call, the upload and its polls at most; the file of the old handle
    is not deleted, and a question or a press of the button in that run is
    not served.  The call is answered by the cache when it knows the file,
    without any request; when it does not, the function runs and its result
    is kept. *)
Theorem new_file_replaces_without_deleting b system_prompt c i s w u :
  uploader i = Some u ->
  same_name (uploaded_file_name s) u = false ->
  exists v page c' w' evs,
    script b system_prompt c i s w
    = Some (Ok (mkSession [] v (Some (uf_name u)) (upload_key s + 1), page, c'), w') /\
    net w' = (evs ++ net w)%list /\
    (forall ev, In ev evs -> report_of ev <> None) /\
    cached c' u <> None /\
    (forall v0 shown, cached c u = Some (v0, shown) -> v = v0 /\ c' = c /\ evs = []) /\
    (cached c u = None ->
     exists w0 shown,
       upload_video_to_gemini b (Some u) w = Some (Ok v, w0) /\
       net w' = net w0 /\
       c' = (u, (v, shown)) :: c).
Proof.
  intros Hu Hn. destruct i as [up q clear]. cbn [uploader] in Hu. subst up.
  destruct (cached c u) as [[v0 shown]|] eqn:Hc.
  - destruct (later_offer b system_prompt u c s w q clear v0 shown Hn Hc)
      as (page & w' & E & Hnet & _).
    exists v0, page, c, w', []. split; [exact E|]. split; [exact Hnet|].
    split; [intros ev []|]. split; [now rewrite Hc|].
    split; [intros ? ? [= <- <-]; auto | discriminate].
  - destruct (upload_run b u w) as (v & w0 & evs & E0 & Hn0 & _ & Hev & _).
    destruct (first_offer b system_prompt u c s w q clear v w0 Hn Hc E0)
      as (page & shown & w1 & E1 & N1).
    exists v, page, ((u, (v, shown)) :: c), w1, evs. split; [exact E1|].
    split; [now rewrite N1|]. split; [exact Hev|].
    split; [cbn [cached]; now rewrite same_file_refl|].
    split; [discriminate|]. intros _. exists w0, shown. auto.
Qed.

(** A new video is chosen while an older one is stored and a question is
    typed: the question is not served and the old file is not deleted. *)
Lemma new_file_replaces_without_deleting_witness :
  exists page c' w',
    script (scripted (fun _ => "ACTIVE")) "You are a fitness trainer." []
      (mkInputs (Some clip) (Some "Is my squat deep enough?") true)
      (mkSession [("user", "Hello"); ("assistant", "Hi")]
                 (Some (mkFile "files/old" "https://example.org/old" "ACTIVE"))
                 (Some "lunge.mp4") 1) fresh
    = Some (Ok (mkSession [] (Some (remote "ACTIVE")) (Some "squat.mp4") 2, page, c'), w') /\
    net w' = [upload_file tmp_path (Ok (remote "ACTIVE"))].
Proof.
  destruct (new_file_replaces_without_deleting (scripted (fun _ => "ACTIVE"))
              "You are a fitness trainer." []
              (mkInputs (Some clip) (Some "Is my squat deep enough?") true)
              (mkSession [("user", "Hello"); ("assistant", "Hi")]
                         (Some (mkFile "files/old" "https://example.org/old" "ACTIVE"))
                         (Some "lunge.mp4") 1) fresh clip eq_refl eq_refl)
    as (v & page & c' & w' & evs & E & _).
  exists page, c', w'. vm_compute in E. injection E as <- <- <- <-.
  split; vm_compute; reflexivity.
Defined.

(** X9.  A failed upload is kept by the cache.  When the upload of a file
    that the cache does not know gives no handle, then, as long as the user
    offers no other file, the script requests nothing more from the service,
    whatever is typed or pressed: the file is not uploaded again, and the
    session stays without a handle. *)
Theorem failed_file_is_refused_from_then_on b system_prompt c s w u q clear visit w0 :
  same_name (uploaded_file_name s) u = false ->
  cached c u = None ->
  upload_video_to_gemini b (Some u) w = Some (Ok None, w0) ->
  Forall (offers_only u) visit ->
  exists page c1 w1 d2 w2,
    script b system_prompt c (mkInputs (Some u) q clear) s w
    = Some (Ok (mkSession [] None (Some (uf_name u)) (upload_key s + 1), page, c1), w1) /\
    play b system_prompt visit
         (stored (mkSession [] None (Some (uf_name u)) (upload_key s + 1)), c1) w1
    = Some (Ok (d2, c1), w2) /\
    net w1 = net w0 /\
    net w2 = net w0 /\
    uploaded_video_file_obj (initialise d2) = None.
Proof.
  intros Hn Hc E Hv.
  destruct (first_offer b system_prompt u c s w q clear None w0 Hn Hc E)
    as (page & shown & w1 & E1 & N1).
  pose proof (play_stuck b system_prompt u visit ((u, (None, shown)) :: c)
                (stored (mkSession [] None (Some (uf_name u)) (upload_key s + 1))) w1) as H.
  apply terminates_run in H; [|split; [exists shown|reflexivity] | exact Hv].
  - destruct H as (res & w2 & E2 & d2 & -> & (_ & Ho) & N2).
    exists page, ((u, (None, shown)) :: c), w1, d2, w2.
    split; [exact E1|]. split; [exact E2|]. split; [exact N1|].
    split; [congruence | exact Ho].
  - cbn [cached]. now rewrite same_file_refl.
Qed.

(** The service fails the processing of the video; the video is offered
    again and again, then a question is asked. *)
Lemma failed_file_is_refused_from_then_on_witness :
  exists page c1 w1 d2 w2,
    script (scripted (fun _ => "FAILED")) "You are a fitness trainer." []
      (mkInputs (Some clip) None false) (mkSession [] None None 0) fresh
    = Some (Ok (mkSession [] None (Some "squat.mp4") 1, page, c1), w1) /\
    play (scripted (fun _ => "FAILED")) "You are a fitness trainer."
      [mkInputs (Some clip) None false;
       mkInputs (Some clip) None false;
       mkInputs (Some clip) (Some "Is my squat deep enough?") false]
      (stored (mkSession [] None (Some "squat.mp4") 1), c1) w1
    = Some (Ok (d2, c1), w2) /\
    net w2 = [upload_file tmp_path (Ok (remote "FAILED"))].
Proof.
  eassert (E : upload_video_to_gemini (scripted (fun _ => "FAILED")) (Some clip) fresh
               = Some (Ok None, _)) by (vm_compute; reflexivity).
  destruct (failed_file_is_refused_from_then_on (scripted (fun _ => "FAILED"))
              "You are a fitness trainer." [] (mkSession [] None None 0) fresh clip
              None false
              [mkInputs (Some clip) None false;
               mkInputs (Some clip) None false;
               mkInputs (Some clip) (Some "Is my squat deep enough?") false] _
              eq_refl eq_refl E)
    as (page & c1 & w1 & d2 & w2 & E1 & E2 & _ & Hn & _).
  - repeat constructor; now right.
  - exists page, c1, w1, d2, w2. split; [exact E1|]. split; [exact E2|]. exact Hn.
Defined.

(** X10.  A handle is kept by the cache beyond the removal of its file.
    After the upload of a file that the cache did not know, a press of the
    button leaves the session without a handle (and may delete the file on
    the service); when the same file is offered after that, nothing is
    requested from the service and the former handle is stored again. *)
Theorem removed_file_comes_back_from_the_cache b system_prompt c s w u f w0 :
  same_name (uploaded_file_name s) u = false ->
  cached c u = None ->
  upload_video_to_gemini b (Some u) w = Some (Ok (Some f), w0) ->
  exists page1 c1 w1 page2 w2 page3 w3,
    script b system_prompt c (mkInputs (Some u) None false) s w
    = Some (Ok (mkSession [] (Some f) (Some (uf_name u)) (upload_key s + 1), page1, c1),
            w1) /\
    script b system_prompt c1 (mkInputs None None true)
           (mkSession [] (Some f) (Some (uf_name u)) (upload_key s + 1)) w1
    = Some (Ok (mkSession [] None None (upload_key s + 1 + 1), page2, c1), w2) /\
    script b system_prompt c1 (mkInputs (Some u) None false)
           (mkSession [] None None (upload_key s + 1 + 1)) w2
    = Some (Ok (mkSession [] (Some f) (Some (uf_name u)) (upload_key s + 1 + 1 + 1),
                page3, c1), w3) /\
    net w3 = net w2.
Proof.
  intros Hn Hc E.
  destruct (first_offer b system_prompt u c s w None false (Some f) w0 Hn Hc E)
    as (page1 & shown & w1 & E1 & _).
  destruct (button_run b system_prompt ((u, (Some f, shown)) :: c)
              (mkSession [] (Some f) (Some (uf_name u)) (upload_key s + 1)) w1)
    as (page2 & w2 & E2).
  destruct (later_offer b system_prompt u ((u, (Some f, shown)) :: c)
              (mkSession [] None None (upload_key s + 1 + 1)) w2 None false (Some f) shown)
    as (page3 & w3 & E3 & N3 & _).
  - reflexivity.
  - cbn [cached]. now rewrite same_file_refl.
  - exists page1, ((u, (Some f, shown)) :: c), w1, page2, w2, page3, w3. auto.
Qed.

(** A video is uploaded, removed with the button, and chosen again. *)
Lemma removed_file_comes_back_from_the_cache_witness :
  exists page1 c1 w1 page2 w2 page3 w3,
    script (scripted (fun _ => "ACTIVE")) "You are a fitness trainer." []
      (mkInputs (Some clip) None false) (mkSession [] None None 0) fresh
    = Some (Ok (mkSession [] (Some (remote "ACTIVE")) (Some "squat.mp4") 1, page1, c1), w1) /\
    script (scripted (fun _ => "ACTIVE")) "You are a fitness trainer." c1
      (mkInputs None None true)
      (mkSession [] (Some (remote "ACTIVE")) (Some "squat.mp4") 1) w1
    = Some (Ok (mkSession [] None None 2, page2, c1), w2) /\
    script (scripted (fun _ => "ACTIVE")) "You are a fitness trainer." c1
      (mkInputs (Some clip) None false) (mkSession [] None None 2) w2
    = Some (Ok (mkSession [] (Some (remote "ACTIVE")) (Some "squat.mp4") 3, page3, c1), w3) /\
    net w3 = net w2.
Proof.
  eassert (E : upload_video_to_gemini (scripted (fun _ => "ACTIVE")) (Some clip) fresh
               = Some (Ok (Some (remote "ACTIVE")), _)) by (vm_compute; reflexivity).
  exact (removed_file_comes_back_from_the_cache (scripted (fun _ => "ACTIVE"))
           "You are a fitness trainer." [] (mkSession [] None None 0) fresh clip
           (remote "ACTIVE") _ eq_refl eq_refl E).
Defined.

(** ** What the script deletes *)

Lemma reported_app new old f : reported old f -> reported (new ++ old) f.
Proof.
  intros (ev & Hin & Hr). exists ev. split; [|exact Hr]. apply in_or_app. now right.
Qed.

Lemma reported_new new old f : reported new f -> reported (new ++ old) f.
Proof.
  intros (ev & Hin & Hr). exists ev. split; [|exact Hr]. apply in_or_app. now left.
Qed.

Lemma deletions_justified_app new old :
  (forall ev, In ev new -> forall nm r, ev <> delete_file nm r) ->
  deletions_justified old ->
  deletions_justified (new ++ old).
Proof.
  intros Hnew Hold. induction new as [|ev new IH]; [exact Hold|].
  cbn [app]. assert (IH' : deletions_justified (new ++ old)).
  { apply IH. intros ev' Hin. apply Hnew. now right. }
  destruct ev; try exact IH'. exfalso. now apply (Hnew _ (or_introl eq_refl) nm r).
Qed.

Section Accounts.

Variable b : Backend.
Variable system_prompt : string.
Variable base : list Event.

Lemma accounted_same_net c s w w' :
  accounted base c s w -> net w' = net w -> accounted base c s w'.
Proof. intros (evs & H) Hn. exists evs. now rewrite Hn. Qed.

Lemma upload_section_accounted c uploaded_file s w :
  accounted base c s w ->
  terminates (upload_section b c uploaded_file s)
    (fun res w' => exists fl page c',
         res = Ok (fl, page, c') /\ accounted base c' (session_of fl) w') w.
Proof.
  intros H. pose proof H as (evs & Hn & Hr & Hk & Hj). unfold upload_section.
  destruct uploaded_file as [u|].
  - destruct (same_name (uploaded_file_name s) u); cbn [negb].
    + destruct (uploaded_video_file_obj s) eqn:Ho.
      * do 3 go. do 3 eexists. split; [reflexivity|]. now apply (accounted_same_net c s w).
      * do 3 go. do 3 eexists. split; [reflexivity|]. exists evs.
        split; [exact Hn|]. split; [discriminate|]. split; [exact Hk | exact Hj].
    + go. apply terminates_upload_cached.
      * intros v shown w1 Hv Hnet. do 3 go. do 3 eexists. split; [reflexivity|].
        cbn [fst snd session_of]. exists evs. rewrite Hnet. split; [exact Hn|].
        split; [|split; [exact Hk | exact Hj]].
        cbn [uploaded_video_file_obj]. intros f ->.
        destruct (cached_In _ _ _ Hv) as (u' & Hin). exact (Hk _ _ _ Hin).
      * intros v shown w1 new _ Hnet _ Hev Hv. do 3 go. do 3 eexists.
        split; [reflexivity|]. cbn [fst snd session_of].
        exists (new ++ evs)%list. rewrite Hnet, Hn, app_assoc. split; [reflexivity|].
        split; [|split].
        -- intros f [= ->]. now apply reported_new, Hv.
        -- intros u' f shown' [[= <- -> <-]|Hin].
           ++ now apply reported_new, Hv.
           ++ apply reported_app. exact (Hk _ _ _ Hin).
        -- apply deletions_justified_app; [|exact Hj].
           intros ev Hin nm r ->. now apply (Hev _ Hin).
  - destruct (uploaded_video_file_obj s) eqn:Ho.
    + do 5 go. do 3 eexists. split; [reflexivity|]. now apply (accounted_same_net c s w).
    + go. do 3 eexists. split; [reflexivity|]. exact H.
Qed.

Lemma chat_accounted c prompt s w :
  accounted base c s w ->
  terminates (chat b system_prompt prompt s)
    (fun res w' => exists s' page, res = Ok (s', page) /\ accounted base c s' w') w.
Proof.
  intros H. pose proof H as (evs & Hn & Hr & Hk & Hj). unfold chat.
  destruct prompt as [[|ch q]|]; try (go; eauto).
  destruct (uploaded_video_file_obj s) as [f|] eqn:Ho; [|go; eauto].
  go. apply terminates_query. intros r w' Hnet. go. do 2 eexists. split; [reflexivity|].
  eexists (_ :: evs). rewrite Hnet, Hn. split; [reflexivity|].
  split; [|split; [|exact Hj]].
  - cbn [uploaded_video_file_obj]. intros f' [= <-]. apply (reported_app [_]). now apply Hr.
  - intros u f' shown Hin. apply (reported_app [_]). exact (Hk _ _ _ Hin).
Qed.

Lemma clear_accounted c s w :
  accounted base c s w ->
  terminates (clear_chat_and_remove_video b s)
    (fun res w' => exists s', res = Ok s' /\ accounted base c s' w') w.
Proof.
  intros (evs & Hn & Hr & Hk & Hj). apply terminates_clear. intros w' new Hnet Hshape.
  eexists. split; [reflexivity|].
  exists (new ++ evs)%list. rewrite Hnet, Hn, app_assoc. split; [reflexivity|].
  split; [discriminate|]. split.
  - intros u f shown Hin. apply reported_app. exact (Hk _ _ _ Hin).
  - destruct Hshape as [->|(obj & Ho & [(r & ->)|(r & r' & ->)])]; cbn; auto.
    split; [|exact Hj]. exists obj. split; [|reflexivity].
    apply (reported_app [_]). now apply Hr.
Qed.

Lemma script_accounted c i s w :
  accounted base c s w ->
  terminates (script b system_prompt c i s)
    (fun res w' => exists s' page c',
         res = Ok (s', page, c') /\ accounted base c' s' w') w.
Proof.
  intros H. unfold script. go.
  eapply terminates_weaken; [apply upload_section_accounted, H|]. cbn beta.
  intros res w1 (fl & page & c1 & -> & H1). destruct fl as [s1|s1]; cbn [session_of] in H1.
  - go. eapply terminates_weaken; [apply (chat_accounted c1), H1|]. cbn beta.
    intros res w2 (s2 & page2 & -> & H2). cbn [fst snd]. destruct (clear_button i).
    + go. eapply terminates_weaken; [apply (clear_accounted c1), H2|]. cbn beta.
      intros res w3 (s3 & -> & H3). go. eauto.
    + go. eauto.
  - go. eauto.
Qed.

Lemma play_accounted visit d c w :
  accounted base c (initialise d) w ->
  terminates (play b system_prompt visit (d, c))
    (fun res w' => exists d' c',
         res = Ok (d', c') /\ accounted base c' (initialise d') w') w.
Proof.
  revert d c w. induction visit as [|i visit IH]; intros d c w H; cbn [play].
  - go. eauto.
  - go. unfold run. cbn [fst snd]. go.
    eapply terminates_weaken; [apply script_accounted, H|]. cbn beta.
    intros res w1 (s1 & page & c1 & -> & H1). go. cbn [fst snd]. apply IH.
    now rewrite initialise_stored.
Qed.

End Accounts.

(** X11.  Whatever happens in a visit that starts with an empty cache, the
    script asks the service to delete a file only if the service has reported
    a file of that name to it earlier in the visit. *)
Theorem visit_deletes_reported_files_only b system_prompt visit w :
  exists d' c' w' evs,
    play b system_prompt visit (empty_state, []) w = Some (Ok (d', c'), w') /\
    net w' = (evs ++ net w)%list /\
    deletions_justified evs.
Proof.
  assert (H : accounted (net w) [] (initialise empty_state) w).
  { exists []. split; [reflexivity|]. split; [discriminate|].
    split; [intros u f shown [] | exact I]. }
  apply (play_accounted b system_prompt (net w) visit) in H.
  apply terminates_run in H.
  destruct H as (res & w' & E & d' & c' & -> & evs & Hn & _ & _ & Hj).
  exists d', c', w', evs. auto.
Qed.

(** ** The chat and the name *)

Section Paired.

Variable b : Backend.
Variable system_prompt : string.

Lemma upload_section_paired c uploaded_file s w :
  paired s ->
  terminates (upload_section b c uploaded_file s)
    (fun res _ => exists fl page c', res = Ok (fl, page, c') /\ paired (session_of fl)) w.
Proof.
  intros H. pose proof H as (Hn & Hd). unfold upload_section.
  destruct uploaded_file as [u|].
  - destruct (same_name (uploaded_file_name s) u); cbn [negb].
    + destruct (uploaded_video_file_obj s) eqn:Ho.
      * do 3 go. eauto 6.
      * do 3 go. do 3 eexists. split; [reflexivity|].
        split; [intros F; contradiction | exact Hd].
    + go. apply terminates_upload_cached.
      * intros v shown w1 _ _. do 3 go. do 3 eexists. split; [reflexivity|].
        split; [intros _; discriminate | reflexivity].
      * intros v shown w1 new _ _ _ _ _. do 3 go. do 3 eexists. split; [reflexivity|].
        split; [intros _; discriminate | reflexivity].
  - destruct (uploaded_video_file_obj s) eqn:Ho.
    + do 5 go. eauto 6.
    + go. eauto 6.
Qed.

Lemma chat_paired prompt s w :
  paired s ->
  terminates (chat b system_prompt prompt s)
    (fun res _ => exists s' page, res = Ok (s', page) /\ paired s') w.
Proof.
  intros H. pose proof H as (Hn & Hd). unfold chat.
  destruct prompt as [[|ch q]|]; try (go; eauto).
  destruct (uploaded_video_file_obj s) as [f|] eqn:Ho; [|go; eauto].
  go. apply terminates_query. intros r w' _. go. do 2 eexists. split; [reflexivity|].
  split; cbn [messages uploaded_video_file_obj uploaded_file_name].
  - intros _. apply Hn. discriminate.
  - now apply alternates_turn.
Qed.

Lemma script_paired c i s w :
  paired s ->
  terminates (script b system_prompt c i s)
    (fun res _ => exists s' page c', res = Ok (s', page, c') /\ paired s') w.
Proof.
  intros H. unfold script. go.
  eapply terminates_weaken; [apply upload_section_paired, H|]. cbn beta.
  intros res w1 (fl & page & c1 & -> & H1). destruct fl as [s1|s1]; cbn [session_of] in H1.
  - go. eapply terminates_weaken; [apply chat_paired, H1|]. cbn beta.
    intros res w2 (s2 & page2 & -> & H2). cbn [fst snd]. destruct (clear_button i).
    + go. apply terminates_clear. intros w3 evs _ _. go. do 3 eexists.
      split; [reflexivity|]. split; [intros F; contradiction | reflexivity].
    + go. eauto 6.
  - go. eauto 6.
Qed.

Lemma play_paired visit d c w :
  paired (initialise d) ->
  terminates (play b system_prompt visit (d, c))
    (fun res _ => exists d' c', res = Ok (d', c') /\ paired (initialise d')) w.
Proof.
  revert d c w. induction visit as [|i visit IH]; intros d c w H; cbn [play].
  - go. eauto.
  - go. unfold run. cbn [fst snd]. go.
    eapply terminates_weaken; [apply script_paired, H|]. cbn beta.
    intros res w1 (s1 & page & c1 & -> & H1). go. cbn [fst snd]. apply IH.
    now rewrite initialise_stored.
Qed.

End Paired.

(** X12.  Whatever happens in a visit, and whatever the cache holds, the chat
    that is kept is made of questions of the user, each followed by its
    answer, and a handle is kept only together with the name of its file. *)
Theorem visit_keeps_the_chat_in_pairs b system_prompt visit c w :
  exists d' c' w',
    play b system_prompt visit (empty_state, c) w = Some (Ok (d', c'), w') /\
    dialogue (messages (initialise d')) = true /\
    (uploaded_video_file_obj (initialise d') <> None ->
     uploaded_file_name (initialise d') <> None).
Proof.
  assert (H : paired (initialise empty_state)).
  { split; [intros F; contradiction | reflexivity]. }
  apply (play_paired b system_prompt visit empty_state c w) in H.
  apply terminates_run in H. destruct H as (res & w' & E & d' & c' & -> & Hn & Hd).
  exists d', c', w'. auto.
Qed.
